(** * db_controller/database_backend.py: a shallow embedding

    The module is the PostgreSQL backend of a small store API.  Every
    function opens its own psycopg2 connection, runs one or two SQL
    statements and reports through a JSON payload or an exception.

    The embedding has three layers:
    - [Python values]: the scalars that travel through the module, their
      [str()], truthiness, [in] on strings, [str.format] and [json.dumps];
    - [the driver]: connections and cursors are handles, every driver call
      is recorded in a log (newest call first) and answered by an
      environment that may depend on the whole history;
    - [the module]: one definition per source function, in source order. *)

From Stdlib Require Import List String Ascii ZArith Bool Lia PeanoNat.
From Stdlib Require Import DecimalString.
Import ListNotations.
Local Open Scope list_scope.
Local Open Scope string_scope.

(** ** Python values *)

(** The double quote and the newline, which Python literals of the module
    contain. *)
Definition dq : string := String (ascii_of_nat 34) EmptyString.
Definition nl : string := String (ascii_of_nat 10) EmptyString.

(** [datetime.datetime] without time zone: the fields that [str()]
    prints. *)
Record datetime : Type := mk_datetime {
  dt_year : nat; dt_month : nat; dt_day : nat;
  dt_hour : nat; dt_minute : nat; dt_second : nat;
  dt_microsecond : nat
}.

(** The values the module passes around: arguments, cells of a fetched row,
    fields of a payload. *)
Inductive scalar : Type :=
| SNone
| SBool (b : bool)
| SInt (z : Z)
| SStr (s : string)
| SDatetime (d : datetime).

#[local] Set Warnings "-register-all".

(** Documents handed to [json.dumps]: scalars, lists (tuples and rows
    serialise as lists too) and dicts in insertion order. *)
Inductive pyobj : Type :=
| OScalar (v : scalar)
| OList (items : list pyobj)
| ODict (fields : list (string * pyobj)).

(** Exceptions, by class.  [SQLAlchemyError] is the only class the module's
    [except] clauses name; [Psycopg2Error] is what the driver raises
    ([psycopg2.Error], which [session_to_db] and [create_cursor] name);
    [ConnectionError] and [ItemNotStored] are the two classes of
    [db_controller.mvc_exceptions], which is not part of the file and whose
    classes are taken to derive from [Exception] directly; the rest are
    Python built-ins.  None is a subclass of another one here, so an
    [except SQLAlchemyError] clause matches the first constructor only. *)
Inductive exn : Type :=
| SQLAlchemyError (msg : string)
| Psycopg2Error (msg : string)
| ConnectionError (msg : string)
| ItemNotStored (msg : string)
| TypeError (msg : string)
| KeyError (msg : string)
| IndexError (msg : string)
| ValueError (msg : string)
| AttributeError (msg : string)
| NameError (msg : string).

(** [str(error)] of an exception built from one message. *)
Definition exn_str (e : exn) : string :=
  match e with
  | SQLAlchemyError m | Psycopg2Error m | ConnectionError m | ItemNotStored m
  | TypeError m | KeyError m | IndexError m | ValueError m
  | AttributeError m | NameError m => m
  end.

Definition is_SQLAlchemyError (e : exn) : bool :=
  match e with SQLAlchemyError _ => true | _ => false end.

(** Decimal text of an integer, as [str(int)] prints it. *)
Definition str_of_Z (z : Z) : string := NilZero.string_of_int (Z.to_int z).
Definition str_of_nat (n : nat) : string := str_of_Z (Z.of_nat n).

(** [str.zfill]-like padding used by [datetime.__str__]. *)
Fixpoint zeros (n : nat) : string :=
  match n with O => EmptyString | S k => "0" ++ zeros k end.
Definition zpad (width n : nat) : string :=
  let s := str_of_nat n in zeros (width - String.length s) ++ s.

(** [str(datetime)]: ISO form with a space, microseconds when not zero. *)
Definition datetime_str (d : datetime) : string :=
  zpad 4 (dt_year d) ++ "-" ++ zpad 2 (dt_month d) ++ "-" ++ zpad 2 (dt_day d)
  ++ " " ++ zpad 2 (dt_hour d) ++ ":" ++ zpad 2 (dt_minute d) ++ ":"
  ++ zpad 2 (dt_second d)
  ++ (if Nat.eqb (dt_microsecond d) 0 then EmptyString
      else "." ++ zpad 6 (dt_microsecond d)).

(** [str(v)]. *)
Definition py_str (v : scalar) : string :=
  match v with
  | SNone => "None"
  | SBool true => "True"
  | SBool false => "False"
  | SInt z => str_of_Z z
  | SStr s => s
  | SDatetime d => datetime_str d
  end.

(** [type(v).__name__]. *)
Definition type_name (v : scalar) : string :=
  match v with
  | SNone => "NoneType"
  | SBool _ => "bool"
  | SInt _ => "int"
  | SStr _ => "str"
  | SDatetime _ => "datetime.datetime"
  end.

(** Truth value of a scalar in an [if]. *)
Definition truthy (v : scalar) : bool :=
  match v with
  | SNone => false
  | SBool b => b
  | SInt z => negb (Z.eqb z 0)
  | SStr s => negb (String.eqb s EmptyString)
  | SDatetime _ => true
  end.

(** [needle in hay] on strings. *)
Fixpoint str_in (needle hay : string) : bool :=
  if String.prefix needle hay then true
  else match hay with
       | EmptyString => false
       | String _ rest => str_in needle rest
       end.

(** [fmt.format(a1, a2, ...)] for templates whose replacement fields are all
    the automatic [{}]; [{{] and [}}] are the escapes.  Surplus arguments
    are ignored, a missing one is an [IndexError], a stray brace a
    [ValueError].  Numbered or named fields occur only in the module's log
    lines, which the embedding leaves out. *)
Fixpoint py_format (fmt : string) (args : list string) : exn + string :=
  match fmt with
  | EmptyString => inr EmptyString
  | String "{" (String "}" rest) =>
      match args with
      | [] => inl (IndexError "Replacement index out of range")
      | a :: args' =>
          match py_format rest args' with
          | inr s => inr (a ++ s)
          | inl e => inl e
          end
      end
  | String "{" (String "{" rest) =>
      match py_format rest args with
      | inr s => inr (String "{" s)
      | inl e => inl e
      end
  | String "}" (String "}" rest) =>
      match py_format rest args with
      | inr s => inr (String "}" s)
      | inl e => inl e
      end
  | String "{" _ => inl (ValueError "Single '{' encountered in format string")
  | String "}" _ => inl (ValueError "Single '}' encountered in format string")
  | String c rest =>
      match py_format rest args with
      | inr s => inr (String c s)
      | inl e => inl e
      end
  end.

(** *** json.dumps *)

Definition hex_digit (n : nat) : string :=
  match n with
  | 0 => "0" | 1 => "1" | 2 => "2" | 3 => "3" | 4 => "4" | 5 => "5"
  | 6 => "6" | 7 => "7" | 8 => "8" | 9 => "9" | 10 => "a" | 11 => "b"
  | 12 => "c" | 13 => "d" | 14 => "e" | _ => "f"
  end.

(** One character inside a JSON string, with [ensure_ascii=True]: the
    printable ASCII range is kept, the quote and the backslash are escaped,
    the rest is written as an escape sequence. *)
Definition json_escape_char (c : ascii) : string :=
  let n := nat_of_ascii c in
  if Nat.eqb n 34 then "\" ++ dq
  else if Nat.eqb n 92 then "\\"
  else if Nat.eqb n 10 then "\n"
  else if Nat.eqb n 13 then "\r"
  else if Nat.eqb n 9 then "\t"
  else if Nat.eqb n 8 then "\b"
  else if Nat.eqb n 12 then "\f"
  else if andb (Nat.leb 32 n) (Nat.leb n 126) then String c EmptyString
  else "\u00" ++ hex_digit (n / 16) ++ hex_digit (n mod 16).

Fixpoint json_escape (s : string) : string :=
  match s with
  | EmptyString => EmptyString
  | String c rest => json_escape_char c ++ json_escape rest
  end.

Definition json_string (s : string) : string := dq ++ json_escape s ++ dq.

Definition json_scalar (v : scalar) : exn + string :=
  match v with
  | SNone => inr "null"
  | SBool true => inr "true"
  | SBool false => inr "false"
  | SInt z => inr (str_of_Z z)
  | SStr s => inr (json_string s)
  | SDatetime _ =>
      inl (TypeError "Object of type datetime is not JSON serializable")
  end.

(** [json.dumps(o)] with the default separators [", "] and [": "]. *)
Fixpoint json_dumps (o : pyobj) : exn + string :=
  match o with
  | OScalar v => json_scalar v
  | OList items =>
      let fix go (first : bool) (l : list pyobj) : exn + string :=
        match l with
        | [] => inr "]"
        | x :: rest =>
            match json_dumps x with
            | inl e => inl e
            | inr sx =>
                match go false rest with
                | inl e => inl e
                | inr sr => inr ((if first then EmptyString else ", ") ++ sx ++ sr)
                end
            end
        end in
      match go true items with
      | inl e => inl e
      | inr s => inr ("[" ++ s)
      end
  | ODict fields =>
      let fix go (first : bool) (l : list (string * pyobj)) : exn + string :=
        match l with
        | [] => inr "}"
        | (k, x) :: rest =>
            match json_dumps x with
            | inl e => inl e
            | inr sx =>
                match go false rest with
                | inl e => inl e
                | inr sr =>
                    inr ((if first then EmptyString else ", ")
                         ++ json_string k ++ ": " ++ sx ++ sr)
                end
            end
        end in
      match go true fields with
      | inl e => inl e
      | inr s => inr ("{" ++ s)
      end
  end.

(** ** The driver *)

(** Connections and cursors are handles: the length of the log when they
    were created.  The module reads a fetched row by column name
    ([r_e[column_name]], [van_data['uuid_van']]) and by position
    ([user_verification[0]]); a row is the ordered list of its
    (column, value) pairs and answers both. *)
Definition conn : Type := nat.
Definition cursor : Type := nat.
Definition row : Type := list (string * scalar).
Definition resultset : Type := option (list (option row)).

(** One entry per driver call; a log lists them newest first. *)
Inductive event : Type :=
| EConnect (c : conn)
| EConnectFailed
| ECursor (c : conn) (k : cursor)
| EExecute (k : cursor) (sql : string) (args : option (list scalar))
| EFetchall (k : cursor)
| EFetchone (k : cursor)
| ECommit (c : conn)
| ERollback (c : conn)
| ECloseCursor (k : cursor)
| EClose (c : conn).

Definition log : Type := list event.

(** What lies outside the module: the database behind psycopg2, and
    [datetime.strptime] with the module's only format,
    ["%Y-%m-%d %H:%M:%S"].  A call is answered from the history so far;
    [Some e] or [inl e] is the call raising [e]. *)
Record Env : Type := mk_env {
  env_connect : log -> option exn;
  env_cursor : log -> conn -> option exn;
  env_execute : log -> cursor -> string -> option (list scalar) -> option exn;
  env_fetchall : log -> cursor -> exn + resultset;
  env_fetchone : log -> cursor -> exn + option row;
  env_commit : log -> conn -> option exn;
  env_rollback : log -> conn -> option exn;
  env_close_cursor : log -> cursor -> option exn;
  env_close : log -> conn -> option exn;
  env_strptime : string -> exn + datetime
}.

(** The constants file, resolved: the keys the module reads. *)
Record Config : Type := mk_config {
  HOST_DB : string;
  USER_DB : string;
  PASSWORD_DB : string;
  PORT_DB : string;
  DATABASE_NAME : string;
  STORE_TABLE : string;
  USERS_AUTH : string
}.

(** ** Computations: a log of driver calls and an outcome *)

Definition M (A : Type) : Type := log -> (exn + A) * log.

Definition ret {A} (a : A) : M A := fun l => (inr a, l).
Definition raise {A} (e : exn) : M A := fun l => (inl e, l).
Definition bind {A B} (m : M A) (f : A -> M B) : M B :=
  fun l => match m l with
           | (inr a, l1) => f a l1
           | (inl e, l1) => (inl e, l1)
           end.

Declare Scope py_scope.
Delimit Scope py_scope with py.
Notation "x <- m ;; k" := (bind m (fun x => k))
  (at level 61, m at next level, right associativity) : py_scope.
Notation "m ;; k" := (bind m (fun _ => k))
  (at level 61, right associativity) : py_scope.
Local Open Scope py_scope.

(** A pure step that may raise. *)
Definition lift {A} (r : exn + A) : M A :=
  match r with inl e => raise e | inr a => ret a end.

(** One driver call that returns nothing: log it, then raise or go on. *)
Definition call (ev : event) (reply : log -> option exn) : M unit :=
  fun l => match reply l with
           | Some e => (inl e, ev :: l)
           | None => (inr tt, ev :: l)
           end.

(** [try: body / except: handler / finally: fin].  [handler e] is [None]
    when no [except] clause matches [e].  The [finally] block runs on every
    path; an exception of its own replaces the pending outcome. *)
Definition try_except_finally {A} (body : M A)
    (handler : exn -> option (M A)) (fin : M unit) : M A :=
  fun l =>
    let '(r1, l1) := body l in
    let '(r2, l2) :=
      match r1 with
      | inr a => (inr a, l1)
      | inl e => match handler e with
                 | Some h => h l1
                 | None => (inl e, l1)
                 end
      end in
    match fin l2 with
    | (inr _, l3) => (r2, l3)
    | (inl e, l3) => (inl e, l3)
    end.

(** [try: body / except: handler] alone. *)
Definition try_except {A} (body : M A) (handler : exn -> option (M A)) : M A :=
  try_except_finally body handler (ret tt).

(** [except SQLAlchemyError as error: h error]. *)
Definition except_SQLAlchemyError {A} (h : exn -> M A) (e : exn) : option (M A) :=
  if is_SQLAlchemyError e then Some (h e) else None.

(** Raise the exception class [cls] with [fmt.format(args)] as message. *)
Definition raise_fmt {A} (cls : string -> exn) (fmt : string)
    (args : list string) : M A :=
  msg <- lift (py_format fmt args) ;; raise (cls msg).

(** [r[name]] and [r[i]] on a fetched row. *)
Fixpoint row_lookup (r : row) (name : string) : option scalar :=
  match r with
  | [] => None
  | (k, v) :: rest => if String.eqb k name then Some v else row_lookup rest name
  end.

Definition row_getitem (r : row) (name : string) : M scalar :=
  match row_lookup r name with
  | Some v => ret v
  | None => raise (KeyError name)
  end.

Definition fetched_getitem (r : option row) (i : nat) : M scalar :=
  match r with
  | None => raise (TypeError "'NoneType' object is not subscriptable")
  | Some cells =>
      match nth_error cells i with
      | Some (_, v) => ret v
      | None => raise (IndexError "list index out of range")
      end
  end.

(** [d.get(key)] on a dict: the value, or [None]. *)
Definition dict_get (d : list (string * scalar)) (key : string) : scalar :=
  match row_lookup d key with Some v => v | None => SNone end.

(** [d(key)]: a dict is not callable. *)
Definition dict_call (d : list (string * scalar)) (key : string) : M scalar :=
  raise (TypeError "'dict' object is not callable").

(** ["'" + v + "'"]: [+] on a str takes a str only. *)
Definition quote_concat (v : scalar) : M string :=
  match v with
  | SStr s => ret ("'" ++ s ++ "'")
  | _ => raise (TypeError ("can only concatenate str (not " ++ dq
                           ++ type_name v ++ dq ++ ") to str"))
  end.

(** A fetched result as [json.dumps] sees it. *)
Definition obj_of_row (r : option row) : pyobj :=
  match r with
  | None => OScalar SNone
  | Some cells => OList (map (fun kv => OScalar (snd kv)) cells)
  end.

Definition obj_of_resultset (rs : resultset) : pyobj :=
  match rs with
  | None => OScalar SNone
  | Some rows => OList (map obj_of_row rows)
  end.

(** ** The module *)

Section Backend.

Variable env : Env.
Variable cfg : Config.

(** *** Driver calls *)

Definition psycopg2_connect : M conn :=
  fun l => match env_connect env l with
           | Some e => (inl e, EConnectFailed :: l)
           | None => (inr (List.length l), EConnect (List.length l) :: l)
           end.

Definition conn_cursor (c : conn) : M cursor :=
  fun l => match env_cursor env l c with
           | Some e => (inl e, ECursor c (List.length l) :: l)
           | None => (inr (List.length l), ECursor c (List.length l) :: l)
           end.

Definition cursor_execute (k : cursor) (sql : string)
    (args : option (list scalar)) : M unit :=
  call (EExecute k sql args) (fun l => env_execute env l k sql args).

Definition cursor_fetchall (k : cursor) : M resultset :=
  fun l => (env_fetchall env l k, EFetchall k :: l).

Definition cursor_fetchone (k : cursor) : M (option row) :=
  fun l => (env_fetchone env l k, EFetchone k :: l).

Definition conn_commit (c : conn) : M unit :=
  call (ECommit c) (fun l => env_commit env l c).

Definition cursor_close (k : cursor) : M unit :=
  call (ECloseCursor k) (fun l => env_close_cursor env l k).

Definition conn_close (c : conn) : M unit :=
  call (EClose c) (fun l => env_close env l c).

(** [conn.rollback()] where [conn] may still be [None]. *)
Definition conn_rollback (c : option conn) : M unit :=
  match c with
  | Some c => call (ERollback c) (fun l => env_rollback env l c)
  | None => raise (AttributeError "'NoneType' object has no attribute 'rollback'")
  end.

Definition strptime (s : string) : M datetime := lift (env_strptime env s).

(** *** init_connect_db, session_to_db *)

Definition init_connect_db : list string :=
  [HOST_DB cfg; USER_DB cfg; PASSWORD_DB cfg; PORT_DB cfg; DATABASE_NAME cfg].

(** The list of five settings is never empty, so the [else] of
    [if data_bd_connection] is dead; every exception of [connect] is turned
    into a [ConnectionError]. *)
Definition session_to_db : M conn :=
  let data_bd_connection := init_connect_db in
  try_except psycopg2_connect
    (fun error => Some (raise_fmt ConnectionError
       (dq ++ "{}" ++ dq
        ++ " Can not connect to database, verify data connection to "
        ++ dq ++ "{}" ++ dq ++ "." ++ nl ++ "Original Exception raised: {}")
       [nth 0 data_bd_connection EmptyString;
        nth 4 data_bd_connection EmptyString; exn_str error])).

(** *** create_cursor, disconnect_from_db, close_cursor *)

Definition create_cursor (c : conn) : M cursor :=
  try_except (conn_cursor c)
    (fun error => Some (raise_fmt ConnectionError
       ("Can not connect to database, verify data connection." ++ nl
        ++ "Original Exception raised: {}")
       [exn_str error])).

Definition disconnect_from_db (c : option conn) : M unit :=
  match c with Some c => conn_close c | None => ret tt end.

Definition close_cursor (k : option cursor) : M unit :=
  match k with Some k => cursor_close k | None => ret tt end.

(** The shape every transaction of the module has:
    [conn = None / try: conn = session_to_db(); body / except ... /
    finally: ...], the handler and the [finally] block reading [conn]. *)
Definition try_with_session {A} (body : conn -> M A)
    (handler : option conn -> exn -> option (M A))
    (fin : option conn -> M unit) : M A :=
  fun l =>
    match session_to_db l with
    | (inl e, l1) => try_except_finally (raise e) (handler None) (fin None) l1
    | (inr c, l1) =>
        try_except_finally (body c) (handler (Some c)) (fin (Some c)) l1
    end.

(** The [except SQLAlchemyError] clause of the store and van transactions. *)
Definition rollback_and_reraise {A} (table_name : string) (c : option conn)
    : exn -> option (M A) :=
  except_SQLAlchemyError (fun error =>
    conn_rollback c ;;
    raise_fmt SQLAlchemyError
      "A SQL Exception {} occurred while transacting with the database on table {}."
      [exn_str error; table_name]).

(** The same clause in [get_datenow_from_db] and
    [get_nextval_economic_number_van], which name no table. *)
Definition rollback_and_reraise_plain {A} (c : option conn)
    : exn -> option (M A) :=
  except_SQLAlchemyError (fun error =>
    conn_rollback c ;;
    raise_fmt SQLAlchemyError
      "A SQL Exception {} occurred while transacting with the database."
      [exn_str error]).

(** *** get_datenow_from_db *)

Definition get_datenow_from_db : M resultset :=
  try_with_session
    (fun conn =>
       let sql_nowdate := "SELECT now()" in
       cursor <- create_cursor conn ;;
       cursor_execute cursor sql_nowdate None ;;
       result <- cursor_fetchall cursor ;;
       let last_updated_date := result in
       cursor_close cursor ;;
       ret last_updated_date)
    rollback_and_reraise_plain
    disconnect_from_db.

(** *** get_nextval_economic_number_van *)

Definition sql_nextval_seq : string := "SELECT nextval('urbvan.eco_num_van')".

(** Returns the fetched row when it is truthy, [None] otherwise. *)
Definition get_nextval_economic_number_van (conn : conn) : M (option row) :=
  try_except
    (cursor <- create_cursor conn ;;
     cursor_execute cursor sql_nextval_seq None ;;
     economic_number_nextval <- cursor_fetchone cursor ;;
     close_cursor (Some cursor) ;;
     match economic_number_nextval with
     | Some (_ :: _) => ret economic_number_nextval
     | _ => ret None
     end)
    (rollback_and_reraise_plain (Some conn)).

(** *** exists_data_row, validate_transaction *)

(** [for r_e in row_exists]: iterating [None] is a [TypeError]. *)
Definition iterate (rs : resultset) : M (list (option row)) :=
  match rs with
  | Some rows => ret rows
  | None => raise (TypeError "'NoneType' object is not iterable")
  end.

(** The loop of both functions: every row that is not [None] overwrites
    [row_data], and the cursor is closed once per row. *)
Fixpoint exists_loop (cursor : cursor) (column_name : string)
    (rows : list (option row)) (row_data : scalar) : M scalar :=
  match rows with
  | [] => ret row_data
  | r_e :: rest =>
      row_data' <- match r_e with
                   | None => ret row_data
                   | Some r => row_getitem r column_name
                   end ;;
      close_cursor (Some cursor) ;;
      exists_loop cursor column_name rest row_data'
  end.

Definition sql_exists2 (table_name column_name column_filter1 : string)
    (value1 : scalar) (column_filter2 : string) (value2 : scalar) : string :=
  "SELECT " ++ column_name ++ " FROM " ++ table_name ++ " "
  ++ "WHERE " ++ column_filter1 ++ " = " ++ py_str value1
  ++ " AND " ++ column_filter2 ++ " = '" ++ py_str value2 ++ "'".

Definition exists_data_row (table_name column_name column_filter1 : string)
    (value1 : scalar) (column_filter2 : string) (value2 : scalar) : M scalar :=
  try_with_session
    (fun conn =>
       cursor <- conn_cursor conn ;;
       let sql_exists := sql_exists2 table_name column_name
                           column_filter1 value1 column_filter2 value2 in
       cursor_execute cursor sql_exists None ;;
       row_exists <- cursor_fetchall cursor ;;
       rows <- iterate row_exists ;;
       exists_loop cursor column_name rows SNone)
    (rollback_and_reraise table_name)
    disconnect_from_db.

Definition validate_transaction (table_name column_name column_filter1 : string)
    (value1 : scalar) (column_filter2 : string) (value2 : scalar)
    (column_filter3 : string) (value3 : scalar) : M scalar :=
  try_with_session
    (fun conn =>
       cursor <- conn_cursor conn ;;
       quoted2 <- quote_concat value2 ;;
       quoted3 <- quote_concat value3 ;;
       sql_exists <- lift (py_format
         "SELECT {} FROM {} WHERE {} = {} AND {} = {} AND {} = {}"
         [column_name; table_name; column_filter1; py_str value1;
          column_filter2; quoted2; column_filter3; quoted3]) ;;
       cursor_execute cursor sql_exists None ;;
       row_exists <- cursor_fetchall cursor ;;
       rows <- iterate row_exists ;;
       exists_loop cursor column_name rows SNone)
    (rollback_and_reraise table_name)
    disconnect_from_db.

(** *** format_store_address *)

Definition format_store_address (street_address external_number_address
    suburb_address zip_postal_code_address city_address
    country_address : scalar) : exn + string :=
  py_format "{} no. {}, col. {}, Cp. {}, {}, {}"
    [py_str street_address; py_str external_number_address;
     py_str suburb_address; py_str zip_postal_code_address;
     py_str city_address; py_str country_address].

(** *** insert_new_store *)

(** [model.StoreModel.StoreModel] is not part of the file: an object with
    one getter per field. *)
Record StoreModel : Type := mk_store {
  get_id_store : scalar;
  get_store_code : scalar;
  get_store_name : scalar;
  get_external_number : scalar;
  get_street_address : scalar;
  get_suburb_address : scalar;
  get_city_address : scalar;
  get_country_address : scalar;
  get_zip_postal_address : scalar;
  get_minimum_stock : scalar
}.

(** The template has no replacement field, so [.format(table_name)] leaves
    it as it is: the statement names [cargamos.store_api] whatever the
    argument.  Twelve placeholders. *)
Definition sql_store_insert (table_name : string) : exn + string :=
  py_format
    ("INSERT INTO cargamos.store_api "
     ++ "(id_store, " ++ "store_name, " ++ "store_code, "
     ++ "store_street_address, " ++ "store_external_number, "
     ++ "store_suburb_address, " ++ "store_city_address, "
     ++ "store_country_address, " ++ "store_zippostal_code, "
     ++ "store_min_inventory, " ++ "creation_date, "
     ++ "last_update_date) VALUES(%s, %s, %s, %s, %s, %s, %s, %s, %s, %s, %s, %s)")
    [table_name].

Definition store_payload (store_id store_code store_name : scalar)
    (address_store : string) (stock : scalar) (date_key : string)
    (date : resultset) (message : string) : pyobj :=
  ODict [("IdStore", OScalar store_id);
         ("CodeStore", OScalar store_code);
         ("NameStore", OScalar store_name);
         ("AddressStore", OScalar (SStr address_store));
         ("MinimumStock", OScalar stock);
         (date_key, obj_of_resultset date);
         ("Message", OScalar (SStr message))].

Definition insert_new_store (table_name : string) (store_obj : StoreModel)
    : M string :=
  store_data_inserted <-
    try_with_session
      (fun conn =>
         cursor <- conn_cursor conn ;;
         created_at <- get_datenow_from_db ;;
         last_update_date <- get_datenow_from_db ;;
         let store_id := get_id_store store_obj in
         let store_code := get_store_code store_obj in
         let store_name := get_store_name store_obj in
         let store_external_number := get_external_number store_obj in
         let store_street_address := get_street_address store_obj in
         let store_suburb_address := get_suburb_address store_obj in
         let store_city_address := get_city_address store_obj in
         let store_country_address := get_country_address store_obj in
         let store_zippostal_code := get_zip_postal_address store_obj in
         let store_min_inventory := get_minimum_stock store_obj in
         let data_insert :=
           [store_id; store_code; store_name; store_external_number;
            store_street_address; store_suburb_address; store_city_address;
            store_country_address; store_zippostal_code;
            store_min_inventory] in
         sql <- lift (sql_store_insert table_name) ;;
         cursor_execute cursor sql (Some data_insert) ;;
         conn_commit conn ;;
         close_cursor (Some cursor) ;;
         row_exists <- validate_transaction table_name "id_store"
                         "id_store" store_id
                         "store_code" store_code
                         "store_name" store_name ;;
         address_store <- lift (format_store_address store_street_address
                                  store_external_number store_suburb_address
                                  store_zippostal_code store_city_address
                                  store_country_address) ;;
         if negb (str_in (py_str store_id) (py_str row_exists)) then
           ret (store_payload store_id store_code store_name address_store
                  store_min_inventory "CreationDate" created_at
                  "Store Inserted Successful")
         else
           ret (store_payload store_id store_code store_name address_store
                  store_min_inventory "CreationDate" created_at
                  "Store already Inserted"))
      (rollback_and_reraise table_name)
      disconnect_from_db ;;
  lift (json_dumps store_data_inserted).

(** *** update_store_data *)

Definition sql_update_store (table_name : string) : exn + string :=
  py_format
    ("UPDATE {} " ++ "SET store_name=%s, " ++ "store_street_address=%s, "
     ++ "store_external_number=%s, " ++ "store_suburb_address=%s, "
     ++ "store_city_address=%s, " ++ "store_country_address=%s, "
     ++ "store_zippostal_code=%s, " ++ "store_min_inventory=%s, "
     ++ "last_update_date=%s " ++ "WHERE id_store=%s AND store_code=%s")
    [table_name].

(** [data_store] is the dict the docstring announces.  The fourth and fifth
    reads call the dict instead of its [get].  In the [else] branch the log
    line names [status_van], which is bound nowhere in the function or the
    module, so the [raise] after it is never reached. *)
Definition update_store_data (table_name : string)
    (data_store : list (string * scalar)) : M string :=
  store_data_updated <-
    try_with_session
      (fun conn =>
         cursor <- conn_cursor conn ;;
         last_update_date <- get_datenow_from_db ;;
         let store_id := dict_get data_store "store_id" in
         let store_code := dict_get data_store "store_code" in
         let store_name := dict_get data_store "store_name" in
         street_address <- dict_call data_store "street_address" ;;
         external_number_address <-
           dict_call data_store "external_number_address" ;;
         let suburb_address := dict_get data_store "suburb_address" in
         let city_address := dict_get data_store "city_address" in
         let country_address := dict_get data_store "country_address" in
         let zip_postal_code_address :=
           dict_get data_store "zip_postal_code_address" in
         let minimum_stock := dict_get data_store "minimum_inventory" in
         sql <- lift (sql_update_store table_name) ;;
         cursor_execute cursor sql
           (Some [store_name; street_address; external_number_address;
                  suburb_address; city_address; country_address;
                  zip_postal_code_address; minimum_stock]) ;;
         address_store <- lift (format_store_address street_address
                                  external_number_address suburb_address
                                  zip_postal_code_address city_address
                                  country_address) ;;
         conn_commit conn ;;
         close_cursor (Some cursor) ;;
         row_exists <- validate_transaction table_name "id_store"
                         "id_store" store_id
                         "store_code" store_code
                         "store_name" store_name ;;
         if str_in (py_str store_id) (py_str row_exists) then
           ret (store_payload store_id store_code store_name address_store
                  minimum_stock "LastUpdateDate" last_update_date
                  "Store Updated Successful")
         else
           raise (NameError "name 'status_van' is not defined"))
      (rollback_and_reraise table_name)
      disconnect_from_db ;;
  lift (json_dumps store_data_updated).

(** *** delete_store_data *)

Definition sql_delete_van (table_name : string) : exn + string :=
  py_format "DELETE FROM {} WHERE id_store=%s AND store_code=%s" [table_name].

Definition delete_payload (store_id store_code : scalar) (message : string)
    : pyobj :=
  ODict [("IdStore", OScalar store_id);
         ("CodeStore", OScalar store_code);
         ("Message", OScalar (SStr message))].

Definition delete_store_data (table_name : string)
    (store_id store_code : scalar) : M string :=
  store_data_deleted <-
    try_with_session
      (fun conn =>
         cursor <- conn_cursor conn ;;
         sql <- lift (sql_delete_van table_name) ;;
         cursor_execute cursor sql (Some [store_id; store_code]) ;;
         conn_commit conn ;;
         close_cursor (Some cursor) ;;
         let store_data_deleted :=
           delete_payload store_id store_code "Store Deleted Successful" in
         row_exists <- exists_data_row table_name "id_store"
                         "id_store" store_id
                         "store_code" store_code ;;
         if str_in (py_str store_id) (py_str row_exists) then
           ret (delete_payload store_id store_code "Store not deleted")
         else
           raise_fmt ItemNotStored
             ("Can't read " ++ dq ++ "{}" ++ dq
              ++ " because it's not stored in table " ++ dq
              ++ "{}. SQL Exception" ++ dq)
             [py_str store_id; table_name])
      (rollback_and_reraise table_name)
      disconnect_from_db ;;
  lift (json_dumps store_data_deleted).

(** *** StoreModelDb.manage_van_vehicle_data *)

(** The attributes of the instance the method reads, as the text they
    format to. *)
Record StoreModelDb : Type := mk_store_db {
  tablename : string;
  uuid_van_attr : string;
  plates_van_attr : string
}.

(** Arguments of a positional call. *)
Inductive pyarg : Type :=
| AVal (v : scalar)
| AStore (o : StoreModel)
| ADict (d : list (string * scalar)).

(** Binding the arguments of [f(a1, ..., an)] to the parameters of a
    function declared with two. *)
Definition arity_error {A} (fname : string) (given : nat) : M A :=
  raise (TypeError
    (if Nat.ltb given 2
     then fname ++ "() missing required positional arguments"
     else fname ++ "() takes 2 positional arguments but "
          ++ str_of_nat given ++ " were given")).

(** No call of the module passes two arguments of another type; that case
    is answered with an [AttributeError] here. *)
Definition call_insert_new_store (args : list pyarg) : M string :=
  match args with
  | [AVal (SStr table_name); AStore store_obj] =>
      insert_new_store table_name store_obj
  | [_; _] => raise (AttributeError "insert_new_store: not a store object")
  | _ => arity_error "insert_new_store" (List.length args)
  end.

Definition call_update_store_data (args : list pyarg) : M string :=
  match args with
  | [AVal (SStr table_name); ADict data_store] =>
      update_store_data table_name data_store
  | [_; _] => raise (AttributeError "update_store_data: not a dict")
  | _ => arity_error "update_store_data" (List.length args)
  end.

Definition manage_van_vehicle_data (self : StoreModelDb)
    (uuid_van plates_van economic_number_van seats_van status_van : scalar)
    : M string :=
  found <- exists_data_row (tablename self) (uuid_van_attr self)
             (uuid_van_attr self) uuid_van
             (plates_van_attr self) plates_van ;;
  if truthy found then
    van_data <- call_update_store_data
                  [AVal (SStr (tablename self)); AVal uuid_van;
                   AVal plates_van; AVal economic_number_van;
                   AVal seats_van; AVal status_van] ;;
    ret van_data
  else
    van_data <- call_insert_new_store
                  [AVal (SStr (tablename self)); AVal uuid_van;
                   AVal plates_van; AVal economic_number_van;
                   AVal seats_van; AVal status_van] ;;
    ret van_data.

(** *** select_van_by_uuid, select_van_by_status *)

Definition sql_van_by (table_name filter_column : string) : exn + string :=
  py_format
    (" SELECT uuid_van, " ++ "        plates_van, "
     ++ "        economic_number_van, " ++ "        seats_van, "
     ++ "        created_at, " ++ "        status_van, "
     ++ "        last_update_date " ++ " FROM {} "
     ++ " WHERE " ++ filter_column ++ " = %s")
    [table_name].

(** One structured record per row; a [None] row is a [SQLAlchemyError]. *)
Fixpoint van_rows (table_name : string) (result : list (option row))
    (acc : list pyobj) : M (list pyobj) :=
  match result with
  | [] => ret acc
  | None :: _ =>
      raise_fmt SQLAlchemyError
        "Can't read data because it's not stored in table {}. SQL Exception"
        [table_name]
  | Some van_data :: rest =>
      uuid_van <- row_getitem van_data "uuid_van" ;;
      plates_van <- row_getitem van_data "plates_van" ;;
      economic_number <- row_getitem van_data "economic_number_van" ;;
      seats_van <- row_getitem van_data "seats_van" ;;
      created_at <- row_getitem van_data "created_at" ;;
      fecha_creacion <- strptime (py_str created_at) ;;
      status_van <- row_getitem van_data "status_van" ;;
      last_update_date <- row_getitem van_data "last_update_date" ;;
      fecha_actualizacion <- strptime (py_str last_update_date) ;;
      van_rows table_name rest
        (acc ++ [ODict [("VanVehicle",
                   ODict [("UUID", OScalar uuid_van);
                          ("Plate", OScalar plates_van);
                          ("EconomicNumber", OScalar economic_number);
                          ("SeatsNumber", OScalar seats_van);
                          ("Status", OScalar status_van);
                          ("CreationDate", OScalar (SDatetime fecha_creacion));
                          ("LastUpdateDate",
                           OScalar (SDatetime fecha_actualizacion))])]])%list
  end.

(** The two functions differ in the filter column only. *)
Definition select_van_by (filter_column table_name : string)
    (key : scalar) : M string :=
  try_with_session
    (fun conn =>
       cursor <- conn_cursor conn ;;
       sql <- lift (sql_van_by table_name filter_column) ;;
       cursor_execute cursor sql (Some [key]) ;;
       result <- cursor_fetchall cursor ;;
       van_data_all <-
         match result with
         | Some rows => van_rows table_name rows []
         | None =>
             raise_fmt ItemNotStored
               ("Can't read " ++ dq ++ "{}" ++ dq
                ++ " because it's not stored in table " ++ dq
                ++ "{}. SQL Exception" ++ dq)
               [py_str key; table_name]
         end ;;
       close_cursor (Some cursor) ;;
       lift (json_dumps (OList van_data_all)))
    (rollback_and_reraise table_name)
    disconnect_from_db.

Definition select_van_by_uuid (table_name : string) (uuid_van : scalar)
    : M string :=
  select_van_by "uuid_van" table_name uuid_van.

Definition select_van_by_status (table_name : string) (status_van : scalar)
    : M string :=
  select_van_by "status_van" table_name status_van.

(** *** validate_user_exists, update_user_password_hashed,
        insert_user_authenticated *)

Definition sql_check (table_name quoted_name : string) : exn + string :=
  py_format "SELECT EXISTS(SELECT 1 FROM {} WHERE username = {} LIMIT 1)"
    [table_name; quoted_name].

Definition validate_user_exists (user_name : scalar) : M (option row) :=
  conn <- session_to_db ;;
  cursor <- conn_cursor conn ;;
  let table_name := USERS_AUTH cfg in
  quoted <- quote_concat user_name ;;
  sql <- lift (sql_check table_name quoted) ;;
  cursor_execute cursor sql None ;;
  result <- cursor_fetchone cursor ;;
  ret result.

Definition sql_update_user (table_name : string) : exn + string :=
  py_format
    "UPDATE {} SET password_hash = %s, last_update_date = NOW() WHERE username = %s"
    [table_name].

Definition update_user_password_hashed (user_name password_hash : scalar)
    : M unit :=
  conn <- session_to_db ;;
  cursor <- create_cursor conn ;;
  last_update_date <- get_datenow_from_db ;;
  let table_name := USERS_AUTH cfg in
  sql <- lift (sql_update_user table_name) ;;
  cursor_execute cursor sql (Some [password_hash; user_name]) ;;
  conn_commit conn ;;
  close_cursor (Some cursor).

Definition sql_user_insert (table_name : string) : exn + string :=
  py_format
    ("INSERT INTO {} (user_id, username, password, password_hash) "
     ++ "VALUES (%s, %s, %s, %s)")
    [table_name].

Definition insert_user_authenticated
    (user_id user_name user_password password_hash : scalar) : M unit :=
  conn <- session_to_db ;;
  cursor <- create_cursor conn ;;
  last_update_date <- get_datenow_from_db ;;
  let table_name := USERS_AUTH cfg in
  let data := [user_id; user_name; user_password; password_hash] in
  sql <- lift (sql_user_insert table_name) ;;
  cursor_execute cursor sql (Some data) ;;
  conn_commit conn ;;
  close_cursor (Some cursor).

(** *** UsersAuth.manage_user_authentication *)

Definition manage_user_authentication
    (user_id user_name user_password password_hash : scalar) : M unit :=
  try_except
    (user_verification <- validate_user_exists user_name ;;
     exists_flag <- fetched_getitem user_verification 0 ;;
     if truthy exists_flag then
       update_user_password_hashed user_name password_hash
     else
       insert_user_authenticated user_id user_name user_password
         password_hash)
    (except_SQLAlchemyError (fun e =>
       raise_fmt ItemNotStored
         ("Can't insert user_id: " ++ dq ++ "{}" ++ dq
          ++ " with user_name: {} because it's not stored in "
          ++ dq ++ "{}" ++ dq)
         [py_str user_id; py_str user_name; USERS_AUTH cfg])).

End Backend.

(** *** scrub *)

(** [str.isalnum] on one character is decided by the Unicode tables, which
    are not reproduced: the classification is a parameter. *)
Section Scrub.

Variable isalnum : ascii -> bool.

(** The generator [(k for k in input_string if k.isalnum())]: one
    one-character string per kept character. *)
Fixpoint alnum_chars (input_string : string) : list string :=
  match input_string with
  | EmptyString => []
  | String k rest =>
      if isalnum k then String k EmptyString :: alnum_chars rest
      else alnum_chars rest
  end.

Definition scrub (input_string : string) : string :=
  String.concat EmptyString (alnum_chars input_string).

End Scrub.

(** The classification on the ASCII range: digits and letters. *)
Definition ascii_isalnum (c : ascii) : bool :=
  let n := nat_of_ascii c in
  (Nat.leb 48 n && Nat.leb n 57) || (Nat.leb 65 n && Nat.leb n 90)
  || (Nat.leb 97 n && Nat.leb n 122).

(** ** Environments and predicates used in the statements *)

(** The driver raises nowhere: every call other than a fetch succeeds. *)
Definition driver_ok (env : Env) : Prop :=
  (forall l, env_connect env l = None) /\
  (forall l c, env_cursor env l c = None) /\
  (forall l k sql args, env_execute env l k sql args = None) /\
  (forall l c, env_commit env l c = None) /\
  (forall l c, env_rollback env l c = None) /\
  (forall l k, env_close_cursor env l k = None) /\
  (forall l c, env_close env l c = None).

(** A fetched row that is not [None] and has the column. *)
Definition has_column (column_name : string) (r : option row) : Prop :=
  exists cells v, r = Some cells /\ row_lookup cells column_name = Some v.

(** The selected column of the last row of a result, [None] for an empty
    result. *)
Definition last_value (column_name : string) (rows : list (option row))
    : scalar :=
  match last rows None with
  | Some cells =>
      match row_lookup cells column_name with Some v => v | None => SNone end
  | None => SNone
  end.


(** The log once a transaction has connected, opened its cursor and
    executed one statement. *)
Definition after_execute (l : log) (sql : string)
    (args : option (list scalar)) : log :=
  EExecute (S (List.length l)) sql args
  :: ECursor (List.length l) (S (List.length l))
  :: EConnect (List.length l) :: l.

(** A driver that never raises and answers every [fetchall] with [rows] and
    every [fetchone] with [one]; [strptime] accepts nothing. *)
Definition quiet_env (rows : resultset) (one : option row) : Env :=
  mk_env (fun _ => None) (fun _ _ => None) (fun _ _ _ _ => None)
    (fun _ _ => inr rows) (fun _ _ => inr one)
    (fun _ _ => None) (fun _ _ => None) (fun _ _ => None) (fun _ _ => None)
    (fun _ => inl (ValueError "time data does not match format")).

(** A driver whose every [execute] raises [psycopg2.Error]. *)
Definition failing_execute_env (msg : string) : Env :=
  mk_env (fun _ => None) (fun _ _ => None)
    (fun _ _ _ _ => Some (Psycopg2Error msg))
    (fun _ _ => inr (Some [])) (fun _ _ => inr None)
    (fun _ _ => None) (fun _ _ => None) (fun _ _ => None) (fun _ _ => None)
    (fun _ => inl (ValueError "time data does not match format")).

Definition sample_config : Config :=
  mk_config "localhost" "api" "secret" "5432" "cargamos"
    "cargamos.store_api" "cargamos.users_api".

Definition sample_store : StoreModel :=
  mk_store (SInt 7) (SStr "S-07") (SStr "Centro") (SStr "123")
    (SStr "Reforma") (SStr "Centro") (SStr "CDMX") (SStr "Mexico")
    (SStr "06000") (SInt 10).

Definition sample_store_db : StoreModelDb :=
  mk_store_db "cargamos.store_api" "uuid_van" "plates_van".


(** Every driver call a computation adds to the log satisfies [P],
    whatever the log it starts from and whatever the driver answers. *)
Definition emits {A} (P : event -> Prop) (m : M A) : Prop :=
  forall l, exists new, snd (m l) = (new ++ l)%list /\ Forall P new.

Definition is_execute (ev : event) : bool :=
  match ev with EExecute _ _ _ => true | _ => false end.

Definition is_close (ev : event) : bool :=
  match ev with EClose _ => true | _ => false end.


(** The call that draws the next value of the economic-number sequence. *)
Definition runs_nextval (ev : event) : Prop :=
  exists k args, ev = EExecute k sql_nextval_seq args.

Definition not_nextval (ev : event) : Prop := ~ runs_nextval ev.

(** A computation that starts by connecting gets the handle
    [List.length l]: it never closes that connection, and when the
    connection is established it is in the log. *)
Definition leaves_connection_open {A} (env : Env) (m : M A) : Prop :=
  forall l,
    exists new,
      snd (m l) = (new ++ l)%list
      /\ ~ In (EClose (List.length l)) new
      /\ (env_connect env l = None -> In (EConnect (List.length l)) new).

(** *** Predicates of the further properties *)

(** Once connected, the last driver call of a run closes the connection
    the run opened. *)
Definition ends_by_closing {A} (env : Env) (m : M A) : Prop :=
  forall l,
    env_connect env l = None ->
    exists rest, snd (m l) = EClose (List.length l) :: rest.

(** When the connection cannot be established, the run raises a
    [ConnectionError] and makes no other driver call. *)
Definition fails_unconnected {A} (env : Env) (m : M A) : Prop :=
  forall l e,
    env_connect env l = Some e ->
    exists msg, m l = (inl (ConnectionError msg), EConnectFailed :: l).

(** Every value a computation returns satisfies [Q]. *)
Definition returns_only {A} (Q : A -> Prop) (m : M A) : Prop :=
  forall l a l', m l = (inr a, l') -> Q a.

(** A call that changes the database: a commit, or a statement other than
    the clock query. *)
Definition is_write (ev : event) : bool :=
  match ev with
  | ECommit _ => true
  | EExecute _ sql _ => negb (String.eqb sql "SELECT now()")
  | _ => false
  end.

(** A call that ends or settles the connection. *)
Definition is_commit_or_close (ev : event) : bool :=
  match ev with
  | ECommit _ | EClose _ => true
  | _ => false
  end.

(** The database answers the statement [sql] with [rs]: a [fetchall] that
    follows the execution of [sql] on the same cursor returns [rs]. *)
Definition fetch_after (env : Env) (sql : string) (rs : resultset) : Prop :=
  forall l k args, env_fetchall env (EExecute k sql args :: l) k = inr rs.

(** A driver that raises nowhere and answers a [fetchall] by the statement
    executed just before it. *)
Definition answering_env (answer : string -> resultset) : Env :=
  mk_env (fun _ => None) (fun _ _ => None) (fun _ _ _ _ => None)
    (fun l _ => match l with
                | EExecute _ sql _ :: _ => inr (answer sql)
                | _ => inr None
                end)
    (fun _ _ => inr None)
    (fun _ _ => None) (fun _ _ => None) (fun _ _ => None) (fun _ _ => None)
    (fun _ => inl (ValueError "time data does not match format")).

(** A driver whose [connect] raises [psycopg2.Error]. *)
Definition refusing_env (msg : string) : Env :=
  mk_env (fun _ => Some (Psycopg2Error msg)) (fun _ _ => None)
    (fun _ _ _ _ => None) (fun _ _ => inr None) (fun _ _ => inr None)
    (fun _ _ => None) (fun _ _ => None) (fun _ _ => None) (fun _ _ => None)
    (fun _ => inl (ValueError "time data does not match format")).


(** The log [get_datenow_from_db] leaves when nothing raises. *)
Definition datenow_log (l : log) : log :=
  EClose (List.length l) :: ECloseCursor (S (List.length l))
  :: EFetchall (S (List.length l)) :: after_execute l "SELECT now()" None.

(** The record [select_van_by_uuid] and [select_van_by_status] build for a
    row: both dates are [datetime] objects. *)
Definition is_van_record (o : pyobj) : Prop :=
  exists uuid_van plates_van economic_number seats_van status_van
         fecha_creacion fecha_actualizacion,
    o = ODict [("VanVehicle",
                ODict [("UUID", OScalar uuid_van);
                       ("Plate", OScalar plates_van);
                       ("EconomicNumber", OScalar economic_number);
                       ("SeatsNumber", OScalar seats_van);
                       ("Status", OScalar status_van);
                       ("CreationDate", OScalar (SDatetime fecha_creacion));
                       ("LastUpdateDate",
                        OScalar (SDatetime fecha_actualizacion))])].

(** ** Properties of the pure helpers *)

Lemma quiet_env_ok rows one : driver_ok (quiet_env rows one).
Proof. unfold driver_ok; simpl; repeat split. Qed.

Lemma append_empty_r (s : string) : s ++ EmptyString = s.
Proof. induction s as [|c s IH]; simpl; [reflexivity | now rewrite IH]. Qed.

Lemma append_assoc (a b c : string) : (a ++ b) ++ c = a ++ (b ++ c).
Proof. induction a as [|x a IH]; simpl; [reflexivity | now rewrite IH]. Qed.

(** C9: [format_store_address] composes its six arguments exactly as
    "{street} no. {external_number}, col. {suburb}, Cp. {zip}, {city},
    {country}", each argument through [str()]; on (Reforma, 123, Centro,
    06000, CDMX, Mexico) the result is
    "Reforma no. 123, col. Centro, Cp. 06000, CDMX, Mexico". *)
Theorem format_store_address_exact :
  (forall street external_number suburb zip city country : scalar,
     format_store_address street external_number suburb zip city country
     = inr (py_str street ++ " no. " ++ py_str external_number ++ ", col. "
            ++ py_str suburb ++ ", Cp. " ++ py_str zip ++ ", "
            ++ py_str city ++ ", " ++ py_str country))
  /\ format_store_address (SStr "Reforma") (SStr "123") (SStr "Centro")
       (SStr "06000") (SStr "CDMX") (SStr "Mexico")
     = inr "Reforma no. 123, col. Centro, Cp. 06000, CDMX, Mexico".
Proof.
  split; [intros | reflexivity].
  unfold format_store_address; simpl.
  now rewrite (append_empty_r (py_str country)).
Qed.

Section ScrubFacts.

Variable isalnum : ascii -> bool.

Lemma scrub_cons (k : ascii) (s : string) :
  scrub isalnum (String k s)
  = if isalnum k then String k (scrub isalnum s) else scrub isalnum s.
Proof.
  unfold scrub; simpl. destruct (isalnum k); [| reflexivity].
  simpl. destruct (alnum_chars isalnum s); reflexivity.
Qed.

Lemma scrub_filter (s : string) :
  list_ascii_of_string (scrub isalnum s)
  = filter isalnum (list_ascii_of_string s).
Proof.
  induction s as [|k s IH]; [reflexivity |].
  rewrite scrub_cons; simpl. destruct (isalnum k); simpl; now rewrite IH.
Qed.

Lemma scrub_fixed (s : string) :
  forallb isalnum (list_ascii_of_string s) = true -> scrub isalnum s = s.
Proof.
  induction s as [|k s IH]; [reflexivity |]; simpl; intros H.
  apply andb_prop in H as [Hk Hs].
  rewrite scrub_cons, Hk. now rewrite (IH Hs).
Qed.

Lemma scrub_all_alnum (s : string) :
  forallb isalnum (list_ascii_of_string (scrub isalnum s)) = true.
Proof.
  induction s as [|k s IH]; [reflexivity |].
  rewrite scrub_cons. destruct (isalnum k) eqn:Hk; [| exact IH].
  simpl. now rewrite Hk, IH.
Qed.

(** C10: [scrub s] is the subsequence of the alphanumeric characters of
    [s] in their order, nothing else changed; so [scrub] is idempotent and
    leaves a string that is entirely alphanumeric as it is. *)
Theorem scrub_keeps_exactly_alnum (s : string) :
  list_ascii_of_string (scrub isalnum s)
    = filter isalnum (list_ascii_of_string s)
  /\ scrub isalnum (scrub isalnum s) = scrub isalnum s
  /\ (forallb isalnum (list_ascii_of_string s) = true -> scrub isalnum s = s).
Proof.
  split; [apply scrub_filter |].
  split; [apply scrub_fixed, scrub_all_alnum | apply scrub_fixed].
Qed.

End ScrubFacts.

Lemma scrub_keeps_exactly_alnum_witness :
  forallb ascii_isalnum (list_ascii_of_string "Store07") = true
  /\ scrub ascii_isalnum "Store07" = "Store07"
  /\ scrub ascii_isalnum "DROP TABLE store_api; --" = "DROPTABLEstoreapi".
Proof.
  split; [reflexivity |].
  split; [| reflexivity].
  apply (scrub_keeps_exactly_alnum ascii_isalnum "Store07"). reflexivity.
Defined.

(** ** Which driver calls a computation can make *)

Section Emits.

Variable env : Env.
Variable cfg : Config.
Variable P : event -> Prop.

(** [P] may restrict the statements executed and the connections closed;
    it holds of every other call. *)
Hypothesis P_other :
  forall ev, is_execute ev = false -> is_close ev = false -> P ev.

Lemma emits_ret {A} (a : A) : emits P (ret a).
Proof. intros l; now exists []. Qed.

Lemma emits_raise {A} (e : exn) : emits P (@raise A e).
Proof. intros l; now exists []. Qed.

Lemma emits_lift {A} (r : exn + A) : emits P (lift r).
Proof. destruct r; [apply emits_raise | apply emits_ret]. Qed.

Lemma emits_bind {A B} (m : M A) (f : A -> M B) :
  emits P m -> (forall a, emits P (f a)) -> emits P (bind m f).
Proof.
  intros Hm Hf l; unfold bind.
  destruct (Hm l) as [n1 [E1 F1]].
  destruct (m l) as [[e | a] l1]; simpl in E1; subst l1.
  - now exists n1.
  - destruct (Hf a (n1 ++ l)%list) as [n2 [E2 F2]].
    exists (n2 ++ n1)%list; rewrite E2, app_assoc; split; [reflexivity |].
    now apply Forall_app.
Qed.

Lemma emits_bind_ret {A B} (a : A) (f : A -> M B) :
  emits P (f a) -> emits P (bind (ret a) f).
Proof. intros H l; exact (H l). Qed.

Lemma emits_call (ev : event) (reply : log -> option exn) :
  P ev -> emits P (call ev reply).
Proof.
  intros H l; exists [ev]; unfold call.
  destruct (reply l); simpl; split; auto.
Qed.

Lemma emits_try_except_finally {A} (body : M A)
    (handler : exn -> option (M A)) (fin : M unit) :
  emits P body ->
  (forall e h, handler e = Some h -> emits P h) ->
  emits P fin ->
  emits P (try_except_finally body handler fin).
Proof.
  intros Hb Hh Hf l; unfold try_except_finally.
  destruct (Hb l) as [n1 [E1 F1]].
  destruct (body l) as [r1 l1]; simpl in E1; subst l1.
  match goal with
  | |- context [let '(_, _) := ?X in _] =>
      assert (exists n2, snd X = (n2 ++ n1 ++ l)%list /\ Forall P n2)
        as [n2 [E2 F2]];
      [| destruct X as [r2 l2]; simpl in E2; subst l2]
  end.
  { destruct r1 as [e | a].
    - destruct (handler e) as [h |] eqn:Hhe.
      + destruct (Hh e h Hhe (n1 ++ l)%list) as [n2 [E2 F2]].
        exists n2; now rewrite E2.
      + now exists [].
    - now exists []. }
  destruct (Hf (n2 ++ n1 ++ l)%list) as [n3 [E3 F3]].
  destruct (fin (n2 ++ n1 ++ l)%list) as [[e | u] l3]; simpl in E3; subst l3;
    exists (n3 ++ n2 ++ n1)%list; simpl; rewrite <- !app_assoc;
    (split; [reflexivity |];
     apply Forall_app; split; [assumption |];
     apply Forall_app; split; assumption).
Qed.

Lemma emits_try_except {A} (body : M A) (handler : exn -> option (M A)) :
  emits P body ->
  (forall e h, handler e = Some h -> emits P h) ->
  emits P (try_except body handler).
Proof.
  intros; apply emits_try_except_finally; auto using emits_ret.
Qed.

Lemma emits_raise_fmt {A} cls fmt args : emits P (@raise_fmt A cls fmt args).
Proof.
  unfold raise_fmt; apply emits_bind; [apply emits_lift |].
  intros; apply emits_raise.
Qed.

Lemma emits_connect : emits P (psycopg2_connect env).
Proof.
  intros l; unfold psycopg2_connect.
  destruct (env_connect env l); simpl;
    [exists [EConnectFailed] | exists [EConnect (List.length l)]];
    (split; [reflexivity | repeat constructor; now apply P_other]).
Qed.

Lemma emits_conn_cursor c : emits P (conn_cursor env c).
Proof.
  intros l; unfold conn_cursor.
  destruct (env_cursor env l c); simpl;
    exists [ECursor c (List.length l)];
    (split; [reflexivity | repeat constructor; now apply P_other]).
Qed.

Lemma emits_execute k sql args :
  P (EExecute k sql args) -> emits P (cursor_execute env k sql args).
Proof. intros; now apply emits_call. Qed.

Lemma emits_fetchall k : emits P (cursor_fetchall env k).
Proof.
  intros l; exists [EFetchall k]; simpl.
  split; [reflexivity | repeat constructor; now apply P_other].
Qed.

Lemma emits_fetchone k : emits P (cursor_fetchone env k).
Proof.
  intros l; exists [EFetchone k]; simpl.
  split; [reflexivity | repeat constructor; now apply P_other].
Qed.

Lemma emits_commit c : emits P (conn_commit env c).
Proof. apply emits_call; now apply P_other. Qed.

Lemma emits_cursor_close k : emits P (cursor_close env k).
Proof. apply emits_call; now apply P_other. Qed.

Lemma emits_close_cursor k : emits P (close_cursor env k).
Proof. destruct k; [apply emits_cursor_close | apply emits_ret]. Qed.

Lemma emits_rollback c : emits P (conn_rollback env c).
Proof.
  destruct c; [apply emits_call; now apply P_other | apply emits_raise].
Qed.

Lemma emits_session_to_db : emits P (session_to_db env cfg).
Proof.
  unfold session_to_db; apply emits_try_except; [apply emits_connect |].
  intros e h [= <-]; apply emits_raise_fmt.
Qed.

Lemma emits_create_cursor c : emits P (create_cursor env c).
Proof.
  unfold create_cursor; apply emits_try_except; [apply emits_conn_cursor |].
  intros e h [= <-]; apply emits_raise_fmt.
Qed.

Lemma emits_rollback_and_reraise {A} table c e (h : M A) :
  rollback_and_reraise env table c e = Some h -> emits P h.
Proof.
  unfold rollback_and_reraise, except_SQLAlchemyError.
  destruct (is_SQLAlchemyError e); [intros [= <-] | discriminate].
  apply emits_bind; [apply emits_rollback | intros; apply emits_raise_fmt].
Qed.

Lemma emits_rollback_and_reraise_plain {A} c e (h : M A) :
  rollback_and_reraise_plain env c e = Some h -> emits P h.
Proof.
  unfold rollback_and_reraise_plain, except_SQLAlchemyError.
  destruct (is_SQLAlchemyError e); [intros [= <-] | discriminate].
  apply emits_bind; [apply emits_rollback | intros; apply emits_raise_fmt].
Qed.

Lemma emits_try_with_session {A} (body : conn -> M A) handler fin :
  (forall c, emits P (body c)) ->
  (forall oc e h, handler oc e = Some h -> emits P h) ->
  (forall oc, emits P (fin oc)) ->
  emits P (try_with_session env cfg body handler fin).
Proof.
  intros Hb Hh Hf l; unfold try_with_session.
  destruct (emits_session_to_db l) as [n0 [E0 F0]].
  destruct (session_to_db env cfg l) as [[e | c] l1]; simpl in E0; subst l1.
  - destruct (emits_try_except_finally (raise e) (handler None) (fin None)
                (emits_raise e) (Hh None) (Hf None) (n0 ++ l)%list)
      as [n1 [E1 F1]].
    exists (n1 ++ n0)%list; rewrite E1, app_assoc; split; [reflexivity |].
    now apply Forall_app.
  - destruct (emits_try_except_finally (body c) (handler (Some c))
                (fin (Some c)) (Hb c) (Hh (Some c)) (Hf (Some c))
                (n0 ++ l)%list) as [n1 [E1 F1]].
    exists (n1 ++ n0)%list; rewrite E1, app_assoc; split; [reflexivity |].
    now apply Forall_app.
Qed.

Lemma emits_disconnect oc :
  (forall c, P (EClose c)) -> emits P (disconnect_from_db env oc).
Proof.
  intros H; destruct oc; [now apply emits_call | apply emits_ret].
Qed.

Lemma emits_exists_loop k col rows d :
  emits P (exists_loop env k col rows d).
Proof.
  revert d; induction rows as [| r rest IH]; intros d; simpl;
    [apply emits_ret |].
  apply emits_bind.
  - destruct r as [cells |]; [| apply emits_ret].
    unfold row_getitem; destruct (row_lookup cells col);
      [apply emits_ret | apply emits_raise].
  - intros v; apply emits_bind; [apply emits_cursor_close | intros; apply IH].
Qed.

End Emits.

(** One step of a proof that a computation emits only allowed calls; [H] is
    the proof that the predicate holds of the calls it does not restrict. *)
Ltac emits_step H :=
  first
    [ apply emits_ret | apply emits_raise | apply emits_lift
    | apply emits_raise_fmt
    | apply emits_conn_cursor; exact H
    | apply emits_create_cursor; exact H
    | apply emits_fetchall; exact H
    | apply emits_fetchone; exact H
    | apply emits_commit; exact H
    | apply emits_cursor_close; exact H
    | apply emits_close_cursor; exact H
    | apply emits_session_to_db; exact H
    | apply emits_exists_loop; exact H
    | apply emits_rollback; exact H
    | apply emits_bind; [| intros ] ].

(** ** The insert path and the sequence *)

Section NoNextval.

Variable env : Env.
Variable cfg : Config.

Lemma not_nextval_other ev :
  is_execute ev = false -> is_close ev = false -> not_nextval ev.
Proof. intros He _ [k [args ->]]; discriminate. Qed.

Lemma not_nextval_close c : not_nextval (EClose c).
Proof. intros [k [args H]]; discriminate. Qed.

Lemma not_nextval_sql k sql args :
  sql <> sql_nextval_seq -> not_nextval (EExecute k sql args).
Proof. intros Hne [k' [args' [= _ Hs _]]]; now apply Hne. Qed.

Lemma emits_get_datenow : emits not_nextval (get_datenow_from_db env cfg).
Proof.
  unfold get_datenow_from_db; apply emits_try_with_session.
  - exact not_nextval_other.
  - intros c. repeat emits_step not_nextval_other.
    apply emits_execute, not_nextval_sql; discriminate.
  - intros oc e h; apply emits_rollback_and_reraise_plain, not_nextval_other.
  - intros oc; apply emits_disconnect, not_nextval_close.
Qed.

Lemma emits_validate_id_store table v1 f2 v2 f3 v3 :
  emits not_nextval
    (validate_transaction env cfg table "id_store" "id_store" v1
       f2 v2 f3 v3).
Proof.
  unfold validate_transaction; apply emits_try_with_session.
  - exact not_nextval_other.
  - intros c. emits_step not_nextval_other; [emits_step not_nextval_other |].
    apply emits_bind; [destruct v2; simpl; emits_step not_nextval_other |].
    intros q2.
    apply emits_bind; [destruct v3; simpl; emits_step not_nextval_other |].
    intros q3. simpl. apply emits_bind_ret.
    apply emits_bind;
      [apply emits_execute, not_nextval_sql; discriminate |].
    intros _.
    apply emits_bind;
      [apply emits_fetchall, not_nextval_other | intros row_exists].
    apply emits_bind;
      [destruct row_exists; simpl; emits_step not_nextval_other
      | intros rows].
    apply emits_exists_loop, not_nextval_other.
  - intros oc e h; apply emits_rollback_and_reraise, not_nextval_other.
  - intros oc; apply emits_disconnect, not_nextval_close.
Qed.

Lemma emits_insert_new_store table store_obj :
  emits not_nextval (insert_new_store env cfg table store_obj).
Proof.
  unfold insert_new_store. apply emits_bind; [| intros; apply emits_lift].
  apply emits_try_with_session.
  - exact not_nextval_other.
  - intros c. emits_step not_nextval_other; [emits_step not_nextval_other |].
    apply emits_bind; [apply emits_get_datenow | intros created_at].
    apply emits_bind; [apply emits_get_datenow | intros last_update_date].
    simpl. apply emits_bind_ret.
    apply emits_bind;
      [apply emits_execute, not_nextval_sql; discriminate | intros _].
    apply emits_bind; [emits_step not_nextval_other | intros _].
    apply emits_bind; [emits_step not_nextval_other | intros _].
    apply emits_bind; [apply emits_validate_id_store | intros row_exists].
    apply emits_bind; [emits_step not_nextval_other | intros address_store].
    match goal with |- emits _ (if ?b then _ else _) => destruct b end;
      apply emits_ret.
  - intros oc e h; apply emits_rollback_and_reraise, not_nextval_other.
  - intros oc; apply emits_disconnect, not_nextval_close.
Qed.

End NoNextval.

(** C5: creating a row through [insert_new_store] never draws a value from
    the economic-number sequence: whatever the driver answers, no call the
    function makes is the [nextval] query; on a driver that raises nowhere
    the one INSERT it executes carries the ten values of the caller's
    object. *)
Theorem insert_new_store_never_draws_sequence :
  (forall env cfg table_name store_obj l,
     exists new,
       snd (insert_new_store env cfg table_name store_obj l) = (new ++ l)%list
       /\ Forall not_nextval new)
  /\ exists sql,
       sql_store_insert "cargamos.store_api" = inr sql
       /\ In (EExecute 1 sql
                (Some [SInt 7; SStr "S-07"; SStr "Centro"; SStr "123";
                       SStr "Reforma"; SStr "Centro"; SStr "CDMX";
                       SStr "Mexico"; SStr "06000"; SInt 10]))
            (snd (insert_new_store (quiet_env (Some []) None) sample_config
                    "cargamos.store_api" sample_store [])).
Proof.
  split.
  - intros; apply emits_insert_new_store.
  - eexists; split; [reflexivity |]. vm_compute. tauto.
Qed.

(** The sequence is read by [get_nextval_economic_number_van] alone, which
    no function of the module calls. *)
Lemma get_nextval_runs_nextval :
  get_nextval_economic_number_van
    (quiet_env None (Some [("nextval", SInt 42)])) 0 [EConnect 0]
  = (inr (Some [("nextval", SInt 42)]),
     [ECloseCursor 1; EFetchone 1; EExecute 1 sql_nextval_seq None;
      ECursor 0 1; EConnect 0]).
Proof. reflexivity. Qed.

(** ** The van upsert *)

(** C1: [manage_van_vehicle_data] first runs the lookup on (uuid, plates);
    when the lookup raises, so does the method; otherwise the truth value of
    what the lookup returned selects the update or the insert call, and
    that call fails on its six positional arguments before any further
    driver call: the method returns no result on any input. *)
Theorem manage_van_vehicle_data_raises env cfg self
    uuid_van plates_van economic_number_van seats_van status_van l :
  match exists_data_row env cfg (tablename self) (uuid_van_attr self)
          (uuid_van_attr self) uuid_van (plates_van_attr self) plates_van l
  with
  | (inl e, l1) =>
      manage_van_vehicle_data env cfg self uuid_van plates_van
        economic_number_van seats_van status_van l = (inl e, l1)
  | (inr found, l1) =>
      manage_van_vehicle_data env cfg self uuid_van plates_van
        economic_number_van seats_van status_van l
      = (inl (TypeError
                ((if truthy found then "update_store_data"
                  else "insert_new_store")
                 ++ "() takes 2 positional arguments but 6 were given")), l1)
  end.
Proof.
  unfold manage_van_vehicle_data, bind.
  destruct (exists_data_row _ _ _ _ _ _ _ _ l) as [[e | found] l1];
    [reflexivity |].
  destruct (truthy found); reflexivity.
Qed.

(** The upsert of a van that is not stored yet: the lookup finds nothing,
    and the insert call fails on its arguments. *)
Lemma manage_van_vehicle_data_new_van :
  manage_van_vehicle_data (quiet_env (Some []) None) sample_config
    sample_store_db (SStr "u-1") (SStr "ABC-123") (SStr "E-9") (SInt 12)
    (SStr "active") []
  = (inl (TypeError
            "insert_new_store() takes 2 positional arguments but 6 were given"),
     [EClose 0; EFetchall 1;
      EExecute 1
        "SELECT uuid_van FROM cargamos.store_api WHERE uuid_van = u-1 AND plates_van = 'ABC-123'"
        None;
      ECursor 0 1; EConnect 0]).
Proof. reflexivity. Qed.

(** ** Running a transaction against given driver answers *)

(** Unfold the combinators and the driver calls, then compute. *)
Ltac py_unfold :=
  unfold try_with_session, session_to_db, try_except, try_except_finally,
    psycopg2_connect, create_cursor, conn_cursor, cursor_execute,
    cursor_fetchall, cursor_fetchone, conn_commit, cursor_close, conn_close,
    conn_rollback, disconnect_from_db, close_cursor, rollback_and_reraise,
    rollback_and_reraise_plain, except_SQLAlchemyError, raise_fmt, iterate,
    fetched_getitem, quote_concat, call, lift, bind, ret, raise;
  simpl.

(** Use the answers the hypotheses give. *)
Ltac py_answer :=
  match goal with
  | H : forall _, _ = _ |- _ => rewrite H
  | H : forall _ _, _ = _ |- _ => rewrite H
  | H : forall _ _ _ _, _ = _ |- _ => rewrite H
  | H : _ = _ |- _ => rewrite H
  end; simpl.

Ltac py_run := repeat (progress py_unfold || py_answer).

(** ** Driver errors in a write *)

(** What [delete_store_data] does when [execute] raises an exception of the
    class its [except] clause names: rollback, then a [SQLAlchemyError]
    that carries the error text and the table name. *)
Lemma delete_store_data_sqlalchemy_error env cfg table_name
    store_id store_code l msg :
  let c := List.length l in
  let sql := "DELETE FROM " ++ table_name
             ++ " WHERE id_store=%s AND store_code=%s" in
  env_connect env l = None ->
  env_cursor env (EConnect c :: l) c = None ->
  env_execute env (ECursor c (S c) :: EConnect c :: l) (S c) sql
    (Some [store_id; store_code]) = Some (SQLAlchemyError msg) ->
  env_rollback env (after_execute l sql (Some [store_id; store_code])) c
    = None ->
  env_close env
    (ERollback c :: after_execute l sql (Some [store_id; store_code])) c
    = None ->
  delete_store_data env cfg table_name store_id store_code l
  = (inl (SQLAlchemyError
            ("A SQL Exception " ++ msg
             ++ " occurred while transacting with the database on table "
             ++ table_name ++ ".")),
     EClose c :: ERollback c
     :: after_execute l sql (Some [store_id; store_code])).
Proof.
  intros c sql Hconn Hcur Hexec Hrb Hclose.
  subst c sql; unfold after_execute in *; simpl in *.
  unfold delete_store_data; py_run.
  reflexivity.
Qed.

(** C7: when [execute] or [commit] raises the driver's own error class
    (or any class other than [SQLAlchemyError]) in [delete_store_data], the
    [except] clause does not match: the connection is closed, no rollback
    is issued, and the caller receives the driver's exception as it is,
    without the table name. *)
Theorem delete_store_data_driver_error_no_rollback env cfg table_name
    store_id store_code l e :
  let c := List.length l in
  let sql := "DELETE FROM " ++ table_name
             ++ " WHERE id_store=%s AND store_code=%s" in
  let args := Some [store_id; store_code] in
  is_SQLAlchemyError e = false ->
  env_connect env l = None ->
  env_cursor env (EConnect c :: l) c = None ->
  (env_execute env (ECursor c (S c) :: EConnect c :: l) (S c) sql args
     = Some e ->
   env_close env (after_execute l sql args) c = None ->
   delete_store_data env cfg table_name store_id store_code l
   = (inl e, EClose c :: after_execute l sql args))
  /\ (env_execute env (ECursor c (S c) :: EConnect c :: l) (S c) sql args
        = None ->
      env_commit env (after_execute l sql args) c = Some e ->
      env_close env (ECommit c :: after_execute l sql args) c = None ->
      delete_store_data env cfg table_name store_id store_code l
      = (inl e, EClose c :: ECommit c :: after_execute l sql args)).
Proof.
  intros c sql args He Hconn Hcur.
  subst c sql args; unfold after_execute in *; simpl in *.
  split.
  - intros Hexec Hclose. unfold delete_store_data; py_run. reflexivity.
  - intros Hexec Hcommit Hclose. unfold delete_store_data; py_run.
    reflexivity.
Qed.

Lemma delete_store_data_driver_error_no_rollback_witness :
  delete_store_data (failing_execute_env "server closed the connection")
    sample_config "cargamos.store_api" (SInt 7) (SStr "S-07") []
  = (inl (Psycopg2Error "server closed the connection"),
     [EClose 0;
      EExecute 1
        "DELETE FROM cargamos.store_api WHERE id_store=%s AND store_code=%s"
        (Some [SInt 7; SStr "S-07"]);
      ECursor 0 1; EConnect 0]).
Proof.
  apply (proj1 (delete_store_data_driver_error_no_rollback
                  (failing_execute_env "server closed the connection")
                  sample_config "cargamos.store_api" (SInt 7) (SStr "S-07")
                  [] (Psycopg2Error "server closed the connection")
                  eq_refl eq_refl eq_refl));
    reflexivity.
Defined.

(** ** Connections of the user transactions *)

(** The events a run added in front of the log [l]. *)
Ltac log_prefix x l :=
  match x with
  | l => constr:(@nil event)
  | ?a :: ?r => let p := log_prefix r l in constr:(a :: p)
  end.

Ltac split_log :=
  match goal with
  | |- exists new, snd (_, ?x) = (new ++ ?l)%list /\ _ =>
      let p := log_prefix x l in exists p
  | |- exists new, ?x = (new ++ ?l)%list /\ _ =>
      let p := log_prefix x l in exists p
  end.

(** Case analysis on the next answer of the driver. *)
Ltac case_reply :=
  match goal with
  | |- context [match env_connect ?e ?l with _ => _ end] =>
      destruct (env_connect e l) eqn:?
  | |- context [match env_cursor ?e ?l ?c with _ => _ end] =>
      destruct (env_cursor e l c)
  | |- context [match env_execute ?e ?l ?k ?s ?a with _ => _ end] =>
      destruct (env_execute e l k s a)
  | |- context [match env_fetchall ?e ?l ?k with _ => _ end] =>
      destruct (env_fetchall e l k)
  | |- context [match env_fetchone ?e ?l ?k with _ => _ end] =>
      destruct (env_fetchone e l k)
  | |- context [match env_commit ?e ?l ?c with _ => _ end] =>
      destruct (env_commit e l c)
  | |- context [match env_rollback ?e ?l ?c with _ => _ end] =>
      destruct (env_rollback e l c)
  | |- context [match env_close_cursor ?e ?l ?k with _ => _ end] =>
      destruct (env_close_cursor e l k)
  | |- context [match env_close ?e ?l ?c with _ => _ end] =>
      destruct (env_close e l c)
  | |- context [if is_SQLAlchemyError ?e then _ else _] =>
      destruct (is_SQLAlchemyError e)
  end; simpl.

(** Every path of the run: no [close] of the first handle, and the
    [connect] that gave it is logged. *)
Ltac open_on_every_path :=
  repeat (first [progress py_unfold | case_reply]);
  (split_log; split; [reflexivity |]; split;
   [ simpl; intros H;
     repeat (destruct H as [H | H];
             [try discriminate H; injection H; lia |]);
     exact H
   | intros Hc; first [congruence | simpl; tauto] ]).

Lemma validate_user_exists_open env cfg user_name :
  leaves_connection_open env (validate_user_exists env cfg user_name).
Proof.
  intros l; unfold validate_user_exists.
  destruct user_name; open_on_every_path.
Qed.

Lemma update_user_password_hashed_open env cfg user_name password_hash :
  leaves_connection_open env
    (update_user_password_hashed env cfg user_name password_hash).
Proof.
  intros l; unfold update_user_password_hashed, get_datenow_from_db.
  open_on_every_path.
Qed.

Lemma insert_user_authenticated_open env cfg user_id user_name
    user_password password_hash :
  leaves_connection_open env
    (insert_user_authenticated env cfg user_id user_name user_password
       password_hash).
Proof.
  intros l; unfold insert_user_authenticated, get_datenow_from_db.
  open_on_every_path.
Qed.

(** C8: the user transactions do not release their connection.  Whatever
    the driver answers, on the success path and on every failure path,
    [validate_user_exists], [update_user_password_hashed] and
    [insert_user_authenticated] make no [close] call on the connection they
    open; when that connection is established it stays in the log, open. *)
Theorem user_transactions_leave_connection_open env cfg
    user_id user_name user_password password_hash :
  leaves_connection_open env (validate_user_exists env cfg user_name)
  /\ leaves_connection_open env
       (update_user_password_hashed env cfg user_name password_hash)
  /\ leaves_connection_open env
       (insert_user_authenticated env cfg user_id user_name user_password
          password_hash).
Proof.
  split; [apply validate_user_exists_open |].
  split; [apply update_user_password_hashed_open |].
  apply insert_user_authenticated_open.
Qed.

Lemma user_transactions_leave_connection_open_witness :
  exists new,
    snd (validate_user_exists
           (quiet_env None (Some [("exists", SBool true)])) sample_config
           (SStr "ana") [])
      = (new ++ [])%list
    /\ ~ In (EClose 0) new
    /\ In (EConnect 0) new.
Proof.
  destruct (proj1 (user_transactions_leave_connection_open
                     (quiet_env None (Some [("exists", SBool true)]))
                     sample_config (SInt 1) (SStr "ana") (SStr "pw")
                     (SStr "5f4dcc3b")) [])
    as (new & Hlog & Hclosed & Hopen).
  exists new. split; [exact Hlog |]. split; [exact Hclosed |].
  apply Hopen. reflexivity.
Defined.

(** ** Reading vans: empty result and absent result *)

Section SelectVan.

Variable env : Env.
Variable cfg : Config.
Hypothesis env_ok : driver_ok env.

Lemma select_van_by_empty col table_name key l sql :
  sql_van_by table_name col = inr sql ->
  env_fetchall env (after_execute l sql (Some [key])) (S (List.length l))
    = inr (Some []) ->
  select_van_by env cfg col table_name key l
  = (inr "[]",
     EClose (List.length l) :: ECloseCursor (S (List.length l))
     :: EFetchall (S (List.length l)) :: after_execute l sql (Some [key])).
Proof.
  destruct env_ok as (Hconn & Hcur & Hexec & Hcommit & Hrb & Hcc & Hclose).
  intros Hsql Hfetch. unfold after_execute in *.
  unfold select_van_by; py_run. reflexivity.
Qed.

Lemma select_van_by_absent col table_name key l sql :
  sql_van_by table_name col = inr sql ->
  env_fetchall env (after_execute l sql (Some [key])) (S (List.length l))
    = inr None ->
  select_van_by env cfg col table_name key l
  = (inl (ItemNotStored
            ("Can't read " ++ dq ++ py_str key ++ dq
             ++ " because it's not stored in table " ++ dq ++ table_name
             ++ ". SQL Exception" ++ dq)),
     EClose (List.length l) :: EFetchall (S (List.length l))
     :: after_execute l sql (Some [key])).
Proof.
  destruct env_ok as (Hconn & Hcur & Hexec & Hcommit & Hrb & Hcc & Hclose).
  intros Hsql Hfetch. unfold after_execute in *.
  unfold select_van_by; py_run. reflexivity.
Qed.

End SelectVan.

(** C3: on a driver that raises nowhere, [select_van_by_uuid] and
    [select_van_by_status] return the JSON text of the empty list when
    [fetchall] gives a result with no row, and raise [ItemNotStored] when
    [fetchall] gives [None]; the connection is closed in both cases. *)
Theorem select_van_empty_vs_absent env cfg table_name key l :
  driver_ok env ->
  let c := List.length l in
  let k := S (List.length l) in
  let not_stored :=
    ItemNotStored ("Can't read " ++ dq ++ py_str key ++ dq
                   ++ " because it's not stored in table " ++ dq
                   ++ table_name ++ ". SQL Exception" ++ dq) in
  exists sql_uuid sql_status,
    sql_van_by table_name "uuid_van" = inr sql_uuid
    /\ sql_van_by table_name "status_van" = inr sql_status
    /\ (env_fetchall env (after_execute l sql_uuid (Some [key])) k
          = inr (Some []) ->
        select_van_by_uuid env cfg table_name key l
        = (inr "[]",
           EClose c :: ECloseCursor k :: EFetchall k
           :: after_execute l sql_uuid (Some [key])))
    /\ (env_fetchall env (after_execute l sql_uuid (Some [key])) k
          = inr None ->
        select_van_by_uuid env cfg table_name key l
        = (inl not_stored,
           EClose c :: EFetchall k :: after_execute l sql_uuid (Some [key])))
    /\ (env_fetchall env (after_execute l sql_status (Some [key])) k
          = inr (Some []) ->
        select_van_by_status env cfg table_name key l
        = (inr "[]",
           EClose c :: ECloseCursor k :: EFetchall k
           :: after_execute l sql_status (Some [key])))
    /\ (env_fetchall env (after_execute l sql_status (Some [key])) k
          = inr None ->
        select_van_by_status env cfg table_name key l
        = (inl not_stored,
           EClose c :: EFetchall k
           :: after_execute l sql_status (Some [key]))).
Proof.
  intros Hok c k not_stored.
  eexists; eexists.
  split; [reflexivity |]. split; [reflexivity |].
  repeat split; intros Hfetch.
  - now apply select_van_by_empty.
  - now apply select_van_by_absent.
  - now apply select_van_by_empty.
  - now apply select_van_by_absent.
Qed.

Lemma select_van_empty_vs_absent_witness :
  fst (select_van_by_status (quiet_env (Some []) None) sample_config
         "urbvan.van" (SStr "active") []) = inr "[]"
  /\ (exists msg,
        fst (select_van_by_status (quiet_env None None) sample_config
               "urbvan.van" (SStr "active") []) = inl (ItemNotStored msg)).
Proof.
  destruct (select_van_empty_vs_absent (quiet_env (Some []) None)
              sample_config "urbvan.van" (SStr "active") []
              (quiet_env_ok _ _))
    as (su & ss & Eu & Es & _ & _ & Hempty & _).
  destruct (select_van_empty_vs_absent (quiet_env None None)
              sample_config "urbvan.van" (SStr "active") []
              (quiet_env_ok _ _))
    as (su' & ss' & Eu' & Es' & _ & _ & _ & Habsent).
  split.
  - rewrite (Hempty eq_refl). reflexivity.
  - eexists. rewrite (Habsent eq_refl). reflexivity.
Defined.

(** ** The existence check *)

Section ExistenceCheck.

Variable env : Env.
Variable cfg : Config.
Hypothesis env_ok : driver_ok env.

Lemma closes_cons {A} (x : A) n (l : list A) :
  (repeat x n ++ x :: l)%list = x :: (repeat x n ++ l)%list.
Proof. induction n as [| n IH]; simpl; [reflexivity | now rewrite IH]. Qed.

Lemma last_value_cons col cells v rest :
  row_lookup cells col = Some v ->
  last_value col (Some cells :: rest)
  = match rest with [] => v | _ :: _ => last_value col rest end.
Proof.
  intros H; unfold last_value; simpl.
  destruct rest; [now rewrite H | reflexivity].
Qed.

(** The loop keeps the value of the last row. *)
Lemma exists_loop_last k col rows :
  Forall (has_column col) rows ->
  forall d l,
    exists_loop env k col rows d l
    = (inr (match rows with [] => d | _ :: _ => last_value col rows end),
       (repeat (ECloseCursor k) (List.length rows) ++ l)%list).
Proof.
  destruct env_ok as (_ & _ & _ & _ & _ & Hcc & _).
  induction 1 as [| r rest Hr Hrest IH]; intros d l; [reflexivity |].
  destruct Hr as (cells & v & -> & Hv).
  simpl. unfold bind, row_getitem. rewrite Hv; simpl.
  unfold cursor_close, call. rewrite Hcc, IH.
  rewrite (last_value_cons _ _ _ _ Hv), closes_cons.
  destruct rest; reflexivity.
Qed.


Lemma exists_data_row_last table col f1 v1 f2 v2 l rows :
  Forall (has_column col) rows ->
  env_fetchall env (after_execute l (sql_exists2 table col f1 v1 f2 v2) None)
    (S (List.length l)) = inr (Some rows) ->
  exists_data_row env cfg table col f1 v1 f2 v2 l
  = (inr (last_value col rows),
     EClose (List.length l)
     :: (repeat (ECloseCursor (S (List.length l))) (List.length rows)
         ++ EFetchall (S (List.length l))
         :: after_execute l (sql_exists2 table col f1 v1 f2 v2) None)%list).
Proof.
  destruct env_ok as (Hconn & Hcur & Hexec & Hcommit & Hrb & Hcc & Hclose).
  intros Hrows Hfetch. unfold after_execute in *.
  unfold exists_data_row; py_unfold.
  rewrite Hconn; simpl. rewrite Hcur; simpl. rewrite Hexec; simpl.
  rewrite Hfetch; simpl. rewrite (exists_loop_last _ _ _ Hrows); simpl.
  unfold conn_close, call; rewrite Hclose. destruct rows; reflexivity.
Qed.


End ExistenceCheck.





(** ** Deleting a store *)






(** ** Registering or updating a user *)



(** ** Opening a connection and a cursor *)

Lemma session_to_db_connected env cfg l :
  env_connect env l = None ->
  session_to_db env cfg l
  = (inr (List.length l), EConnect (List.length l) :: l).
Proof.
  intros H; unfold session_to_db, try_except, try_except_finally,
    psycopg2_connect.
  now rewrite H.
Qed.

Lemma session_to_db_refused env cfg l e :
  env_connect env l = Some e ->
  exists msg,
    session_to_db env cfg l = (inl (ConnectionError msg), EConnectFailed :: l).
Proof.
  intros H; unfold session_to_db, try_except, try_except_finally,
    psycopg2_connect.
  rewrite H; eexists; reflexivity.
Qed.



(** ** The connection of a store or van transaction *)

Section SessionScope.

Variable env : Env.
Variable cfg : Config.

Lemma finally_close_is_last {A} (body : M A) handler c l :
  exists rest,
    snd (try_except_finally body handler (disconnect_from_db env (Some c)) l)
    = EClose c :: rest.
Proof.
  unfold try_except_finally.
  destruct (body l) as [r1 l1].
  match goal with
  | |- context [let '(_, _) := ?X in _] => destruct X as [r2 l2]
  end.
  unfold disconnect_from_db, conn_close, call.
  destruct (env_close env l2 c); eexists; reflexivity.
Qed.

Lemma try_with_session_closes {A} (body : conn -> M A) handler :
  ends_by_closing env
    (try_with_session env cfg body handler (disconnect_from_db env)).
Proof.
  intros l Hc.
  unfold try_with_session; rewrite (session_to_db_connected env cfg l Hc).
  apply finally_close_is_last.
Qed.

Lemma try_with_session_unconnected {A} (body : conn -> M A) handler :
  (forall msg, handler None (ConnectionError msg) = None) ->
  fails_unconnected env
    (try_with_session env cfg body handler (disconnect_from_db env)).
Proof.
  intros Hh l e Hc.
  destruct (session_to_db_refused env cfg l e Hc) as [msg Hs].
  unfold try_with_session; rewrite Hs.
  unfold try_except_finally, raise; rewrite Hh; simpl.
  eexists; reflexivity.
Qed.

Lemma ends_by_closing_then {A B} (m : M A) (f : A -> exn + B) :
  ends_by_closing env m ->
  ends_by_closing env (bind m (fun a => lift (f a))).
Proof.
  intros Hm l Hc; destruct (Hm l Hc) as [rest Hrest].
  unfold bind; destruct (m l) as [[e | a] l1]; simpl in *;
    [| destruct (f a); simpl]; eexists; exact Hrest.
Qed.

Lemma fails_unconnected_then {A B} (m : M A) (f : A -> exn + B) :
  fails_unconnected env m ->
  fails_unconnected env (bind m (fun a => lift (f a))).
Proof.
  intros Hm l e Hc; destruct (Hm l e Hc) as [msg Hmsg].
  unfold bind; rewrite Hmsg; eexists; reflexivity.
Qed.

End SessionScope.

(** X4: the store and van transactions release their connection.  Whatever
    the driver answers and on every exit path, normal or exceptional, once
    [connect] has succeeded the last driver call of each of these functions
    is the [close] of the connection it opened. *)
Theorem transactions_end_by_closing env cfg table_name column_name
    f1 v1 f2 v2 f3 v3 store_obj data_store store_id store_code key :
  ends_by_closing env (get_datenow_from_db env cfg)
  /\ ends_by_closing env
       (exists_data_row env cfg table_name column_name f1 v1 f2 v2)
  /\ ends_by_closing env
       (validate_transaction env cfg table_name column_name f1 v1 f2 v2
          f3 v3)
  /\ ends_by_closing env (insert_new_store env cfg table_name store_obj)
  /\ ends_by_closing env (update_store_data env cfg table_name data_store)
  /\ ends_by_closing env
       (delete_store_data env cfg table_name store_id store_code)
  /\ ends_by_closing env (select_van_by_uuid env cfg table_name key)
  /\ ends_by_closing env (select_van_by_status env cfg table_name key).
Proof.
  repeat split;
    first [ apply try_with_session_closes
          | apply ends_by_closing_then, try_with_session_closes ].
Qed.

Lemma transactions_end_by_closing_witness :
  exists rest,
    snd (delete_store_data (failing_execute_env "server closed the connection")
           sample_config "cargamos.store_api" (SInt 7) (SStr "S-07")
           [EClose 0; EConnect 0])
    = EClose 2 :: rest.
Proof.
  apply (transactions_end_by_closing
           (failing_execute_env "server closed the connection") sample_config
           "cargamos.store_api" "id_store" "id_store" (SInt 7)
           "store_code" (SStr "S-07") "store_name" (SStr "Centro")
           sample_store [] (SInt 7) (SStr "S-07") (SStr "active")).
  reflexivity.
Defined.

(** X5: when the connection cannot be established, each store and van
    transaction raises the [ConnectionError] of [session_to_db]: the
    [except SQLAlchemyError] clause does not catch it, nothing is rolled
    back or closed, and no statement reaches the database. *)
Theorem transactions_fail_unconnected env cfg table_name column_name
    f1 v1 f2 v2 f3 v3 store_obj data_store store_id store_code key :
  fails_unconnected env (get_datenow_from_db env cfg)
  /\ fails_unconnected env
       (exists_data_row env cfg table_name column_name f1 v1 f2 v2)
  /\ fails_unconnected env
       (validate_transaction env cfg table_name column_name f1 v1 f2 v2
          f3 v3)
  /\ fails_unconnected env (insert_new_store env cfg table_name store_obj)
  /\ fails_unconnected env (update_store_data env cfg table_name data_store)
  /\ fails_unconnected env
       (delete_store_data env cfg table_name store_id store_code)
  /\ fails_unconnected env (select_van_by_uuid env cfg table_name key)
  /\ fails_unconnected env (select_van_by_status env cfg table_name key).
Proof.
  repeat split;
    first [ apply try_with_session_unconnected; reflexivity
          | apply fails_unconnected_then, try_with_session_unconnected;
            reflexivity ].
Qed.

Lemma transactions_fail_unconnected_witness :
  exists msg,
    select_van_by_status (refusing_env "could not connect to server")
      sample_config "urbvan.van" (SStr "active") []
    = (inl (ConnectionError msg), [EConnectFailed]).
Proof.
  eapply (transactions_fail_unconnected
           (refusing_env "could not connect to server") sample_config
           "urbvan.van" "id_store" "id_store" (SInt 7)
           "store_code" (SStr "S-07") "store_name" (SStr "Centro")
           sample_store [] (SInt 7) (SStr "S-07") (SStr "active")).
  reflexivity.
Defined.

(** ** The clock query *)

Lemma get_datenow_run env cfg l rs :
  driver_ok env ->
  env_fetchall env (after_execute l "SELECT now()" None) (S (List.length l))
    = inr rs ->
  get_datenow_from_db env cfg l = (inr rs, datenow_log l).
Proof.
  intros (Hconn & Hcur & Hexec & Hcommit & Hrb & Hcc & Hclose) Hfetch.
  unfold datenow_log, after_execute in *.
  unfold get_datenow_from_db; py_run. reflexivity.
Qed.

(** X3: on a driver whose other calls raise nowhere, [get_datenow_from_db]
    returns what [fetchall] gave for [SELECT now()], on a connection of its
    own that it closes; when [fetchall] raises an exception of a class
    other than [SQLAlchemyError], the exception reaches the caller as it
    is, the connection is closed and the cursor is not. *)
Theorem get_datenow_from_db_result env cfg l :
  driver_ok env ->
  let c := List.length l in
  let k := S (List.length l) in
  let asked := after_execute l "SELECT now()" None in
  (forall rs,
     env_fetchall env asked k = inr rs ->
     get_datenow_from_db env cfg l
     = (inr rs, EClose c :: ECloseCursor k :: EFetchall k :: asked))
  /\ (forall e,
        env_fetchall env asked k = inl e ->
        is_SQLAlchemyError e = false ->
        get_datenow_from_db env cfg l
        = (inl e, EClose c :: EFetchall k :: asked)).
Proof.
  intros Hok c k asked; split.
  - intros rs Hfetch. now apply get_datenow_run.
  - destruct Hok as (Hconn & Hcur & Hexec & Hcommit & Hrb & Hcc & Hclose).
    intros e Hfetch He. subst c k asked; unfold after_execute in *.
    unfold get_datenow_from_db; py_run. reflexivity.
Qed.

Lemma get_datenow_from_db_result_witness :
  get_datenow_from_db
    (quiet_env (Some [Some [("now", SStr "2021-03-04 05:06:07")]]) None)
    sample_config []
  = (inr (Some [Some [("now", SStr "2021-03-04 05:06:07")]]),
     [EClose 0; ECloseCursor 1; EFetchall 1;
      EExecute 1 "SELECT now()" None; ECursor 0 1; EConnect 0]).
Proof.
  apply (proj1 (get_datenow_from_db_result
                  (quiet_env (Some [Some [("now", SStr "2021-03-04 05:06:07")]])
                     None)
                  sample_config [] (quiet_env_ok _ _))).
  reflexivity.
Defined.

(** ** Updating a store *)

(** The outcome and the new calls at the end of a path that raised. *)
Ltac raised_without_write :=
  match goal with
  | |- exists e new, (inl ?x, ?L) = (inl e, (new ++ ?l)%list) /\ _ =>
      exists x; let p := log_prefix L l in exists p;
      split; [reflexivity | repeat constructor]
  end.

(** X6: [update_store_data] never returns and never writes.  Whatever the
    driver answers, the call ends in an exception, and the only calls it
    makes besides opening and closing are the clock query: no UPDATE is
    executed and nothing is committed.  On a driver that raises nowhere
    the exception is the [TypeError] of calling the dict [data_store]. *)
Theorem update_store_data_never_returns env cfg table_name data_store l :
  (exists e new,
     update_store_data env cfg table_name data_store l = (inl e, (new ++ l)%list)
     /\ Forall (fun ev => is_write ev = false) new)
  /\ (driver_ok env ->
      (forall l' k', exists rs, env_fetchall env l' k' = inr rs) ->
      fst (update_store_data env cfg table_name data_store l)
      = inl (TypeError "'dict' object is not callable")).
Proof.
  split.
  - unfold update_store_data, get_datenow_from_db, dict_call.
    repeat (first [progress py_unfold | case_reply]); raised_without_write.
  - intros (Hconn & Hcur & Hexec & Hcommit & Hrb & Hcc & Hclose) Hall.
    unfold update_store_data, get_datenow_from_db, dict_call. py_run.
    match goal with
    | |- context [env_fetchall env ?l0 ?k0] =>
        destruct (Hall l0 k0) as [rs Hrs]; rewrite Hrs; simpl
    end.
    py_run. reflexivity.
Qed.

Lemma update_store_data_never_returns_witness :
  fst (update_store_data (quiet_env (Some []) None) sample_config
         "cargamos.store_api"
         [("store_id", SInt 7); ("store_code", SStr "S-07");
          ("store_name", SStr "Centro"); ("street_address", SStr "Reforma")]
         [])
  = inl (TypeError "'dict' object is not callable").
Proof.
  apply (proj2 (update_store_data_never_returns
                  (quiet_env (Some []) None) sample_config
                  "cargamos.store_api"
                  [("store_id", SInt 7); ("store_code", SStr "S-07");
                   ("store_name", SStr "Centro");
                   ("street_address", SStr "Reforma")] [])
               (quiet_env_ok _ _)
               (fun _ _ => ex_intro _ (Some []) eq_refl)).
Defined.

(** ** What a computation can return *)

Section ReturnsOnly.

Variable env : Env.
Variable cfg : Config.

Lemma returns_only_ret {A} (Q : A -> Prop) a : Q a -> returns_only Q (ret a).
Proof. intros H l a' l' [= <- _]; exact H. Qed.

Lemma returns_only_raise {A} (Q : A -> Prop) e : returns_only Q (raise e).
Proof. intros l a l' H; discriminate H. Qed.

Lemma returns_only_lift {A} (Q : A -> Prop) (r : exn + A) :
  (forall a, r = inr a -> Q a) -> returns_only Q (lift r).
Proof.
  intros H; destruct r as [e | a];
    [apply returns_only_raise | apply returns_only_ret; now apply H].
Qed.

Lemma returns_only_weaken {A} (Q Q' : A -> Prop) (m : M A) :
  (forall a, Q a -> Q' a) -> returns_only Q m -> returns_only Q' m.
Proof. intros HQ Hm l a l' H; apply HQ; exact (Hm l a l' H). Qed.

Lemma returns_only_bind_with {A B} (Q1 : A -> Prop) (Q : B -> Prop)
    (m : M A) (f : A -> M B) :
  returns_only Q1 m ->
  (forall a, Q1 a -> returns_only Q (f a)) ->
  returns_only Q (bind m f).
Proof.
  intros Hm Hf l b l'; unfold bind.
  destruct (m l) as [[e | a] l1] eqn:E; [discriminate |].
  intros H; exact (Hf a (Hm l a l1 E) l1 b l' H).
Qed.

Lemma returns_only_bind {A B} (Q : B -> Prop) (m : M A) (f : A -> M B) :
  (forall a, returns_only Q (f a)) -> returns_only Q (bind m f).
Proof.
  intros Hf; apply (returns_only_bind_with (fun _ => True)); [| auto].
  intros l a l' _; exact I.
Qed.

Lemma returns_only_raise_fmt {A} (Q : A -> Prop) cls fmt args :
  returns_only Q (raise_fmt cls fmt args).
Proof.
  unfold raise_fmt; apply returns_only_bind; intros;
    apply returns_only_raise.
Qed.

Lemma returns_only_try_except_finally {A} (Q : A -> Prop) (body : M A)
    handler fin :
  returns_only Q body ->
  (forall e h, handler e = Some h -> returns_only Q h) ->
  returns_only Q (try_except_finally body handler fin).
Proof.
  intros Hb Hh l a l'; unfold try_except_finally.
  destruct (body l) as [[e | a0] l1] eqn:Eb.
  - destruct (handler e) as [h |] eqn:Ehe.
    + destruct (h l1) as [[e2 | a2] l2] eqn:Eh;
        destruct (fin l2) as [[ef | u] l3]; try discriminate.
      intros [= <- _]; exact (Hh e h Ehe l1 a2 l2 Eh).
    + destruct (fin l1) as [[ef | u] l3]; discriminate.
  - destruct (fin l1) as [[ef | u] l3]; [discriminate |].
    intros [= <- _]; exact (Hb l a0 l1 Eb).
Qed.

Lemma returns_only_reraise {A} (Q : A -> Prop) table oc e (h : M A) :
  rollback_and_reraise env table oc e = Some h -> returns_only Q h.
Proof.
  unfold rollback_and_reraise, except_SQLAlchemyError.
  destruct (is_SQLAlchemyError e); [intros [= <-] | discriminate].
  apply returns_only_bind; intros; apply returns_only_raise_fmt.
Qed.

Lemma returns_only_reraise_plain {A} (Q : A -> Prop) oc e (h : M A) :
  rollback_and_reraise_plain env oc e = Some h -> returns_only Q h.
Proof.
  unfold rollback_and_reraise_plain, except_SQLAlchemyError.
  destruct (is_SQLAlchemyError e); [intros [= <-] | discriminate].
  apply returns_only_bind; intros; apply returns_only_raise_fmt.
Qed.

Lemma returns_only_try_with_session {A} (Q : A -> Prop)
    (body : conn -> M A) handler fin :
  (forall c, returns_only Q (body c)) ->
  (forall oc e h, handler oc e = Some h -> returns_only Q h) ->
  returns_only Q (try_with_session env cfg body handler fin).
Proof.
  intros Hb Hh l a l'; unfold try_with_session.
  destruct (session_to_db env cfg l) as [[e | c] l1].
  - apply returns_only_try_except_finally;
      [apply returns_only_raise | apply Hh].
  - apply returns_only_try_except_finally; [apply Hb | apply Hh].
Qed.

End ReturnsOnly.

(** ** What the store delete can report *)

(** X7: [delete_store_data] never reports a deletion.  Whatever the driver
    answers, when the call returns, what it returns is the text of the
    "Store not deleted" payload: the "Store Deleted Successful" payload it
    prepares is never returned. *)
Theorem delete_store_data_never_reports_success env cfg table_name
    store_id store_code l text l' :
  delete_store_data env cfg table_name store_id store_code l
    = (inr text, l') ->
  json_dumps (delete_payload store_id store_code "Store not deleted")
    = inr text.
Proof.
  revert l text l'.
  change (returns_only
            (fun text =>
               json_dumps
                 (delete_payload store_id store_code "Store not deleted")
               = inr text)
            (delete_store_data env cfg table_name store_id store_code)).
  unfold delete_store_data.
  apply (returns_only_bind_with
           (fun p => p = delete_payload store_id store_code
                           "Store not deleted")).
  - apply returns_only_try_with_session;
      [| intros oc e h; apply returns_only_reraise].
    intros c. repeat (apply returns_only_bind; intros).
    match goal with
    | |- returns_only _ (if ?b then _ else _) => destruct b
    end; [now apply returns_only_ret | apply returns_only_raise_fmt].
  - intros p ->. now apply returns_only_lift.
Qed.

Lemma delete_store_data_never_reports_success_witness :
  exists text l',
    delete_store_data
      (quiet_env (Some [Some [("id_store", SInt 7)]]) None)
      sample_config "cargamos.store_api" (SInt 7) (SStr "S-07") []
    = (inr text, l')
    /\ json_dumps (delete_payload (SInt 7) (SStr "S-07") "Store not deleted")
       = inr text.
Proof.
  eexists; eexists; split; [vm_compute; reflexivity |].
  eapply (delete_store_data_never_reports_success
            (quiet_env (Some [Some [("id_store", SInt 7)]]) None)
            sample_config "cargamos.store_api" (SInt 7) (SStr "S-07") []).
  vm_compute; reflexivity.
Defined.

(** ** Reading vans: rows in the result *)

Lemma van_record_not_serializable o :
  is_van_record o -> exists e, json_dumps o = inl e.
Proof.
  intros (u & p & en & se & st & d1 & d2 & ->). simpl.
  destruct (json_scalar u); [eexists; reflexivity |].
  destruct (json_scalar p); [eexists; reflexivity |].
  destruct (json_scalar en); [eexists; reflexivity |].
  destruct (json_scalar se); [eexists; reflexivity |].
  destruct (json_scalar st); eexists; reflexivity.
Qed.

Lemma van_list_only_empty out text :
  Forall is_van_record out ->
  json_dumps (OList out) = inr text -> text = "[]".
Proof.
  intros Hout. destruct Hout as [| x rest Hx _].
  - simpl; now intros [= <-].
  - destruct (van_record_not_serializable x Hx) as [e He].
    simpl. rewrite He. discriminate.
Qed.

Lemma van_rows_records env table_name rows :
  forall acc,
    returns_only
      (fun out => exists recs,
         out = (acc ++ recs)%list /\ Forall is_van_record recs)
      (van_rows env table_name rows acc).
Proof.
  induction rows as [| r rest IH]; intros acc.
  - simpl. apply returns_only_ret. exists []; split; [| constructor].
    now rewrite app_nil_r.
  - destruct r as [van_data |]; simpl; [| apply returns_only_raise_fmt].
    repeat (apply returns_only_bind; intros).
    eapply returns_only_weaken; [| apply IH].
    intros out (recs & -> & Hrecs).
    eexists; split; [now rewrite <- app_assoc |].
    constructor; [| exact Hrecs]. repeat eexists.
Qed.

(** X12: [select_van_by_uuid] and [select_van_by_status] never return a
    van.  Every record they build holds two [datetime] objects, which
    [json.dumps] refuses: whatever the driver answers, when one of them
    returns, the text it returns is that of the empty list. *)
Theorem select_van_returns_only_empty_list env cfg table_name key l text l' :
  (select_van_by_uuid env cfg table_name key l = (inr text, l') ->
   text = "[]")
  /\ (select_van_by_status env cfg table_name key l = (inr text, l') ->
      text = "[]").
Proof.
  assert (H : forall col,
            returns_only (fun t => t = "[]")
              (select_van_by env cfg col table_name key)).
  { intros col. unfold select_van_by.
    apply returns_only_try_with_session;
      [| intros oc e h; apply returns_only_reraise].
    intros c. do 4 (apply returns_only_bind; intros).
    apply (returns_only_bind_with (Forall is_van_record)).
    - match goal with
      | |- returns_only _ (match ?r with _ => _ end) => destruct r
      end; [| apply returns_only_raise_fmt].
      eapply returns_only_weaken; [| apply van_rows_records].
      intros out (recs & -> & Hrecs); exact Hrecs.
    - intros out Hout. apply returns_only_bind; intros.
      apply returns_only_lift. intros t. now apply van_list_only_empty. }
  split; apply H.
Qed.

Lemma select_van_returns_only_empty_list_witness :
  fst (select_van_by_uuid (quiet_env (Some []) None) sample_config
         "urbvan.van" (SStr "u-1") []) = inr "[]".
Proof.
  destruct (select_van_by_uuid (quiet_env (Some []) None) sample_config
              "urbvan.van" (SStr "u-1") []) as [[e | text] l'] eqn:E.
  - vm_compute in E. discriminate E.
  - simpl. f_equal.
    exact (proj1 (select_van_returns_only_empty_list
                    (quiet_env (Some []) None) sample_config
                    "urbvan.van" (SStr "u-1") [] text l') E).
Defined.

(** X13: a [None] row in the result is the one case in which the
    [except SQLAlchemyError] clause of the van reads fires.  On a driver
    that raises nowhere, when the first row [fetchall] gives is [None],
    [select_van_by_status] rolls back, closes the connection and raises a
    [SQLAlchemyError] whose message wraps the inner message and names the
    table twice. *)
Theorem select_van_none_row_rolls_back env cfg table_name key l sql rest :
  driver_ok env ->
  sql_van_by table_name "status_van" = inr sql ->
  fetch_after env sql (Some (None :: rest)) ->
  let c := List.length l in
  let k := S (List.length l) in
  select_van_by_status env cfg table_name key l
  = (inl (SQLAlchemyError
            ("A SQL Exception Can't read data because it's not stored in table "
             ++ table_name ++ ". SQL Exception"
             ++ " occurred while transacting with the database on table "
             ++ table_name ++ ".")),
     EClose c :: ERollback c :: EFetchall k
     :: after_execute l sql (Some [key])).
Proof.
  intros (Hconn & Hcur & Hexec & Hcommit & Hrb & Hcc & Hclose) Hsql Hfetch
    c k.
  subst c k; unfold after_execute, fetch_after in *.
  unfold sql_van_by in Hsql; simpl in Hsql; injection Hsql as <-.
  unfold select_van_by_status, select_van_by; py_run.
  rewrite Hfetch; simpl; py_run.
  rewrite ?append_assoc; simpl. reflexivity.
Qed.

Lemma select_van_none_row_rolls_back_witness :
  exists msg sql,
    select_van_by_status (quiet_env (Some [None]) None) sample_config
      "urbvan.van" (SStr "active") []
    = (inl (SQLAlchemyError msg),
       [EClose 0; ERollback 0; EFetchall 1; EExecute 1 sql
          (Some [SStr "active"]); ECursor 0 1; EConnect 0]).
Proof.
  eexists; eexists.
  apply (select_van_none_row_rolls_back (quiet_env (Some [None]) None)
           sample_config "urbvan.van" (SStr "active") [] _ []
           (quiet_env_ok _ _) eq_refl).
  intros l k args; reflexivity.
Defined.

(** ** Deleting a store whose row is gone *)

(** X8: on a driver that raises nowhere, when the check that follows the
    delete finds no row (the row was deleted, or was never stored),
    [delete_store_data] has executed and committed the DELETE and then
    raises [ItemNotStored]; unless the text of [store_id] occurs in the
    text "None", the [str()] of the empty check: then it returns the
    "Store not deleted" payload. *)
Theorem delete_store_data_row_gone env cfg table_name store_id store_code l :
  driver_ok env ->
  fetch_after env
    (sql_exists2 table_name "id_store" "id_store" store_id
       "store_code" store_code) (Some []) ->
  let c := List.length l in
  let k := S (List.length l) in
  let sql := "DELETE FROM " ++ table_name
             ++ " WHERE id_store=%s AND store_code=%s" in
  let deleted :=
    ECloseCursor k :: ECommit c
    :: after_execute l sql (Some [store_id; store_code]) in
  let checked :=
    EClose (List.length deleted) :: EFetchall (S (List.length deleted))
    :: after_execute deleted
         (sql_exists2 table_name "id_store" "id_store" store_id
            "store_code" store_code) None in
  (str_in (py_str store_id) "None" = false ->
   delete_store_data env cfg table_name store_id store_code l
   = (inl (ItemNotStored
             ("Can't read " ++ dq ++ py_str store_id ++ dq
              ++ " because it's not stored in table " ++ dq ++ table_name
              ++ ". SQL Exception" ++ dq)),
      EClose c :: checked))
  /\ (str_in (py_str store_id) "None" = true ->
      delete_store_data env cfg table_name store_id store_code l
      = (json_dumps (delete_payload store_id store_code "Store not deleted"),
         EClose c :: checked)).
Proof.
  intros Hok Hfetch c k sql deleted checked.
  pose proof (exists_data_row_last env cfg Hok table_name "id_store"
                "id_store" store_id "store_code" store_code deleted []
                (Forall_nil _) (Hfetch _ _ _)) as Hcheck.
  destruct Hok as (Hconn & Hcur & Hexec & Hcommit & Hrb & Hcc & Hclose).
  subst c k sql checked deleted; unfold after_execute in *; simpl in *.
  split; intros Hin;
    unfold delete_store_data, try_with_session, session_to_db, try_except,
      try_except_finally, psycopg2_connect, conn_cursor, cursor_execute,
      conn_commit, close_cursor, cursor_close, disconnect_from_db,
      conn_close, call, lift, bind, ret; simpl;
    rewrite Hconn; simpl; rewrite Hcur; simpl; rewrite Hexec; simpl;
    rewrite Hcommit; simpl; rewrite Hcc; simpl;
    rewrite Hcheck; simpl; rewrite Hin; simpl.
  - unfold raise_fmt, bind, lift, raise, ret; simpl. rewrite Hclose; simpl.
    reflexivity.
  - rewrite Hclose; simpl.
    destruct (json_scalar store_id); [reflexivity |].
    destruct (json_scalar store_code); reflexivity.
Qed.

Lemma delete_store_data_row_gone_witness :
  (exists msg l',
     delete_store_data (answering_env (fun _ => Some [])) sample_config
       "cargamos.store_api" (SInt 7) (SStr "S-07") []
     = (inl (ItemNotStored msg), l') /\ In (ECommit 0) l')
  /\ fst (delete_store_data (answering_env (fun _ => Some [])) sample_config
            "cargamos.store_api" (SStr "on") (SStr "S-07") [])
     = json_dumps (delete_payload (SStr "on") (SStr "S-07")
                     "Store not deleted").
Proof.
  assert (Hok : driver_ok (answering_env (fun _ => Some []))).
  { unfold driver_ok; simpl; repeat split. }
  split.
  - eexists; eexists; split.
    + apply (proj1 (delete_store_data_row_gone
                      (answering_env (fun _ => Some [])) sample_config
                      "cargamos.store_api" (SInt 7) (SStr "S-07") [] Hok
                      (fun _ _ _ => eq_refl))).
      reflexivity.
    + simpl; tauto.
  - rewrite (proj2 (delete_store_data_row_gone
                      (answering_env (fun _ => Some [])) sample_config
                      "cargamos.store_api" (SStr "on") (SStr "S-07") [] Hok
                      (fun _ _ _ => eq_refl)) eq_refl).
    reflexivity.
Defined.

(** ** Edge cases of the existence check *)

Lemma validate_transaction_type_error env cfg table_name column_name
    f1 v1 f2 v2 f3 v3 l :
  driver_ok env ->
  (forall s, v2 <> SStr s) \/ (forall s, v3 <> SStr s) ->
  exists msg,
    validate_transaction env cfg table_name column_name f1 v1 f2 v2 f3 v3 l
    = (inl (TypeError msg),
       EClose (List.length l)
       :: ECursor (List.length l) (S (List.length l))
       :: EConnect (List.length l) :: l).
Proof.
  intros (Hconn & Hcur & Hexec & Hcommit & Hrb & Hcc & Hclose) Hns.
  unfold validate_transaction.
  destruct v2 as [| b2 | z2 | s2 | d2];
    try (py_run; eexists; reflexivity).
  destruct Hns as [H2 | H3]; [now elim (H2 s2) |].
  destruct v3 as [| b3 | z3 | s3 | d3];
    try (py_run; eexists; reflexivity).
  now elim (H3 s3).
Qed.

(** X10: [validate_transaction] concatenates quotes to its second and third
    values, so they must be strings.  On a driver that raises nowhere, when
    one of them is not, the call connects, opens a cursor, raises
    [TypeError] and closes the connection: no statement is executed. *)
Theorem validate_transaction_needs_strings env cfg table_name column_name
    f1 v1 f2 v2 f3 v3 l :
  driver_ok env ->
  (forall s, v2 <> SStr s) \/ (forall s, v3 <> SStr s) ->
  exists msg,
    validate_transaction env cfg table_name column_name f1 v1 f2 v2 f3 v3 l
    = (inl (TypeError msg),
       EClose (List.length l)
       :: ECursor (List.length l) (S (List.length l))
       :: EConnect (List.length l) :: l).
Proof. apply validate_transaction_type_error. Qed.

Lemma validate_transaction_needs_strings_witness :
  exists msg,
    validate_transaction (quiet_env (Some []) None) sample_config
      "cargamos.store_api" "id_store" "id_store" (SInt 7)
      "store_code" (SInt 12) "store_name" (SStr "Centro") []
    = (inl (TypeError msg), [EClose 0; ECursor 0 1; EConnect 0]).
Proof.
  apply (validate_transaction_needs_strings (quiet_env (Some []) None)
           sample_config "cargamos.store_api" "id_store" "id_store" (SInt 7)
           "store_code" (SInt 12) "store_name" (SStr "Centro") []
           (quiet_env_ok _ _)).
  left; intros s; discriminate.
Defined.



(** ** Errors of the user registration *)

(** X15: [manage_user_authentication] lets no [SQLAlchemyError] out.  When
    one of its steps raises that class, the caller receives an
    [ItemNotStored]; an exception of any other class reaches the caller as
    it is.  So whatever the driver answers, the exception of a failed call
    is never a [SQLAlchemyError]. *)
Theorem manage_user_authentication_error_class env cfg
    user_id user_name user_password password_hash l e l' :
  manage_user_authentication env cfg user_id user_name user_password
    password_hash l = (inl e, l') ->
  is_SQLAlchemyError e = false.
Proof.
  unfold manage_user_authentication, try_except, try_except_finally.
  match goal with
  | |- context [let '(_, _) := ?body l in _] =>
      destruct (body l) as [[e0 | u] l1]
  end; simpl.
  - unfold except_SQLAlchemyError.
    destruct (is_SQLAlchemyError e0) eqn:He0.
    + unfold raise_fmt, bind, lift, raise, ret; simpl.
      intros [= <- _]; reflexivity.
    + simpl. intros [= <- _]; exact He0.
  - discriminate.
Qed.

Lemma manage_user_authentication_error_class_witness :
  exists e l',
    manage_user_authentication (quiet_env None None) sample_config
      (SInt 1) (SStr "ana") (SStr "pw") (SStr "5f4dcc3b") [] = (inl e, l')
    /\ is_SQLAlchemyError e = false.
Proof.
  eexists; eexists; split; [vm_compute; reflexivity |].
  eapply (manage_user_authentication_error_class (quiet_env None None)
            sample_config (SInt 1) (SStr "ana") (SStr "pw") (SStr "5f4dcc3b")
            []).
  vm_compute; reflexivity.
Defined.

(** ** The sequence helper *)

(** X18: [get_nextval_economic_number_van] leaves the connection it is
    given to its caller: whatever the driver answers, it makes no [commit]
    and no [close] call; and it never returns an empty row: what it
    returns is a row with at least one cell, or [None]. *)
Theorem get_nextval_keeps_connection env c l :
  (exists new,
     snd (get_nextval_economic_number_van env c l) = (new ++ l)%list
     /\ Forall (fun ev => is_commit_or_close ev = false) new)
  /\ (forall r l',
        get_nextval_economic_number_van env c l = (inr r, l') ->
        r <> Some []).
Proof.
  split.
  - unfold get_nextval_economic_number_van.
    repeat (first
              [ progress py_unfold
              | case_reply
              | match goal with
                | |- context [match ?o with Some _ => _ | None => _ end] =>
                    is_var o; destruct o as [[| ? ?] |]; simpl
                end ]);
      (split_log; split; [reflexivity | repeat constructor]).
  - revert l.
    change (returns_only (fun r : option row => r <> Some [])
              (get_nextval_economic_number_van env c)).
    unfold get_nextval_economic_number_van, try_except.
    apply returns_only_try_except_finally;
      [| intros e h; apply returns_only_reraise_plain].
    repeat (apply returns_only_bind; intros).
    match goal with
    | |- returns_only _ (match ?o with Some _ => _ | None => _ end) =>
        destruct o as [[| ? ?] |]
    end; apply returns_only_ret; discriminate.
Qed.

Lemma get_nextval_keeps_connection_witness :
  exists r l',
    get_nextval_economic_number_van (quiet_env None (Some [])) 0 [EConnect 0]
    = (inr r, l')
    /\ r <> Some [].
Proof.
  eexists; eexists; split; [vm_compute; reflexivity |].
  eapply (proj2 (get_nextval_keeps_connection (quiet_env None (Some [])) 0
                   [EConnect 0])).
  vm_compute; reflexivity.
Defined.

(** ** scrub and concatenation *)

Section ScrubCompose.

Variable isalnum : ascii -> bool.

(** X17: [scrub] works character by character: cleaning a concatenation is
    concatenating the cleaned parts, and the result is never longer than
    the input. *)
Theorem scrub_concatenation (a b : string) :
  scrub isalnum (a ++ b) = scrub isalnum a ++ scrub isalnum b
  /\ String.length (scrub isalnum a) <= String.length a.
Proof.
  split.
  - induction a as [| k a IH]; [reflexivity |].
    simpl. rewrite !scrub_cons, IH. now destruct (isalnum k).
  - induction a as [| k a IH]; [apply Nat.le_refl |].
    rewrite scrub_cons. destruct (isalnum k); simpl; lia.
Qed.

End ScrubCompose.

(** ** What the store insert reports *)







(** ** Reading vans: a timestamp that does not parse *)


